(** * The status / gallery / hero data service of the car boot sale site

    A shallow embedding of the Express server (its routes, its two
    validation middlewares and its multer configuration) together with
    the properties of the service that the specification states.

    Conventions of the model.
    - A JavaScript string is the list of its UTF-16 code units, so that
      [length] is the [.length] of the source.
    - A value that arrives in a parsed request body is a [JsValue].
    - The three JSON documents are typed by what the server writes into
      them; they exist from [initializeDataFiles] on and no route removes
      them.  A failing read or write of a document (an I/O fault, answered
      with status 500 by the routes' [catch] blocks) is outside the model;
      the failure of [fs.unlink] on an absent file, which two routes
      tolerate explicitly, is inside it.
    - The two upload directories are finite sets of file names.
    - The rate limiters, helmet and cors are external middleware and are
      taken to have let the request through.
    - A [Request] holds what reaches the middleware chain of a route:
      [req.body] as the body parsers left it, and the file parts that the
      upload middleware reads.  [receive] gives it for a request as it
      arrives: the body parsers leave [req.body] at [{}] for a multipart
      request, whose fields and files only multer reads, and multer runs
      after [validatePassword].
    - A stored file name is joined to its upload directory; a name with
      "/" or ".." would lead out of it, to a file that the model does not
      hold.  The delete route of the gallery checks the name; the statements
      about what the delete route of the hero background removes assume
      [hero_name_stays], which holds of every record the server writes.
    - Clock readings and the draw of [Math.random] are explicit inputs. *)

From Stdlib Require Import NArith ZArith String Ascii List Lia.
From Stdlib Require Import Decimal DecimalN.
From Stdlib Require Import Floats.SpecFloat.
From stdpp Require Import base decidable option list gmap sets.
Import ListNotations.

Local Open Scope N_scope.
Local Open Scope list_scope.

(** ** JavaScript strings *)

Definition jstr : Type := list N.

Definition js (s : string) : jstr :=
  map N_of_ascii (list_ascii_of_string s).

(** [s.includes(t)] *)
Fixpoint starts_with (t s : jstr) : bool :=
  match t, s with
  | [], _ => true
  | _ :: _, [] => false
  | a :: t', b :: s' => if decide (a = b) then starts_with t' s' else false
  end.

Fixpoint includes (s t : jstr) : bool :=
  starts_with t s ||
  match s with
  | [] => false
  | _ :: s' => includes s' t
  end.

(** [s.slice(from, to)] for [0 <= from] and [0 <= to] *)
Definition slice (s : jstr) (from to : nat) : jstr :=
  take (to - from)%nat (drop from s).

(** [s.toLowerCase()]: the letters A-Z are mapped to a-z.  The other code
    units are kept; none of them lowers to a letter of an allowed
    extension, which is all the server uses the result for. *)
Definition lower_unit (c : N) : N :=
  if (65 <=? c) && (c <=? 90) then c + 32 else c.

Definition toLowerCase (s : jstr) : jstr := map lower_unit s.

(** [String(n)] for a non-negative integer below 1e21: its decimal digits *)
Fixpoint uint_units (u : uint) : jstr :=
  match u with
  | Nil => []
  | D0 u => 48 :: uint_units u
  | D1 u => 49 :: uint_units u
  | D2 u => 50 :: uint_units u
  | D3 u => 51 :: uint_units u
  | D4 u => 52 :: uint_units u
  | D5 u => 53 :: uint_units u
  | D6 u => 54 :: uint_units u
  | D7 u => 55 :: uint_units u
  | D8 u => 56 :: uint_units u
  | D9 u => 57 :: uint_units u
  end.

Definition num_to_string (n : N) : jstr := uint_units (N.to_uint n).

Definition is_digit (c : N) : bool := (48 <=? c) && (c <=? 57).

(** A string that cannot continue a run of digits: it is empty or starts
    with a code unit that is not a digit. *)
Definition stops (r : jstr) : Prop :=
  match r with
  | [] => True
  | c :: _ => is_digit c = false
  end.

(** ** JavaScript values *)

#[local] Set Warnings "-register-all".

Inductive JsValue : Type :=
| JsUndefined
| JsNull
| JsBool (b : bool)
| JsNumber (x : spec_float)
| JsString (s : jstr)
| JsArray (elems : list JsValue)
| JsObject (props : list (jstr * JsValue)).

(** ToBoolean *)
Definition truthy (v : JsValue) : bool :=
  match v with
  | JsUndefined | JsNull => false
  | JsBool b => b
  | JsNumber (S754_zero _) | JsNumber S754_nan => false
  | JsNumber _ => true
  | JsString [] => false
  | JsString (_ :: _) => true
  | JsArray _ | JsObject _ => true
  end.

Definition typeof (v : JsValue) : jstr :=
  match v with
  | JsUndefined => js "undefined"
  | JsNull => js "object"
  | JsBool _ => js "boolean"
  | JsNumber _ => js "number"
  | JsString _ => js "string"
  | JsArray _ | JsObject _ => js "object"
  end.

(** [a || b] *)
Definition js_or (a b : JsValue) : JsValue := if truthy a then a else b.

(** [Boolean(v)] *)
Definition Boolean (v : JsValue) : JsValue := JsBool (truthy v).

(** [v.length > n], used by the source only where [v] is truthy and a
    string; the other kinds of value have no [length] here and the
    comparison of [undefined] with a number is false. *)
Definition length_gt (v : JsValue) (n : nat) : bool :=
  match v with
  | JsString s => bool_decide (n < length s)%nat
  | JsArray l => bool_decide (n < length l)%nat
  | _ => false
  end.

(** A parsed request body; a property that is absent reads as [undefined]. *)
Definition Body : Type := list (jstr * JsValue).

Fixpoint get_prop (o : Body) (k : jstr) : JsValue :=
  match o with
  | [] => JsUndefined
  | (k', v) :: o' => if decide (k' = k) then v else get_prop o' k
  end.

(** [a !== b] where [b] is a string *)
Definition strict_ne_string (a : JsValue) (b : jstr) : bool :=
  match a with
  | JsString s => bool_decide (s ≠ b)
  | _ => true
  end.

(** ** [path.extname] (POSIX)

    The loop of Node's [path.posix.extname]: the path is scanned from its
    last code unit to its first, [n] being one more than the index that
    is looked at next; [-1] of the original is [None] here. *)

Record ExtScan : Type := mkExtScan {
  startDot : option nat;
  startPart : nat;
  endPos : option nat;
  matchedSlash : bool;
  preDotState : Z
}.

Definition CHAR_FORWARD_SLASH : N := 47.
Definition CHAR_DOT : N := 46.

Definition scan_start : ExtScan :=
  {| startDot := None; startPart := 0%nat; endPos := None;
     matchedSlash := true; preDotState := 0%Z |}.

Definition mark_end (i : nat) (st : ExtScan) : ExtScan :=
  match endPos st with
  | None =>
      {| startDot := startDot st; startPart := startPart st;
         endPos := Some (S i); matchedSlash := false;
         preDotState := preDotState st |}
  | Some _ => st
  end.

Definition mark_dot (i : nat) (code : N) (st : ExtScan) : ExtScan :=
  if decide (code = CHAR_DOT) then
    match startDot st with
    | None =>
        {| startDot := Some i; startPart := startPart st;
           endPos := endPos st; matchedSlash := matchedSlash st;
           preDotState := preDotState st |}
    | Some _ =>
        {| startDot := startDot st; startPart := startPart st;
           endPos := endPos st; matchedSlash := matchedSlash st;
           preDotState := 1%Z |}
    end
  else
    match startDot st with
    | Some _ =>
        {| startDot := startDot st; startPart := startPart st;
           endPos := endPos st; matchedSlash := matchedSlash st;
           preDotState := (-1)%Z |}
    | None => st
    end.

Fixpoint extname_scan (path : jstr) (n : nat) (st : ExtScan) : ExtScan :=
  match n with
  | O => st
  | S i =>
      let code := nth i path 0 in
      if decide (code = CHAR_FORWARD_SLASH) then
        if matchedSlash st then extname_scan path i st
        else
          {| startDot := startDot st; startPart := S i;
             endPos := endPos st; matchedSlash := matchedSlash st;
             preDotState := preDotState st |}
      else extname_scan path i (mark_dot i code (mark_end i st))
  end.

Definition extname (path : jstr) : jstr :=
  let st := extname_scan path (length path) scan_start in
  match startDot st, endPos st with
  | Some sd, Some e =>
      if bool_decide (preDotState st = 0%Z)
         || (bool_decide (preDotState st = 1%Z)
             && bool_decide (sd = e - 1)%nat
             && bool_decide (sd = startPart st + 1)%nat)
      then []
      else slice path sd e
  | _, _ => []
  end.

(** What the scan keeps true: a recorded dot is a dot of the path and
    lies before the recorded end. *)
Definition scan_inv (path : jstr) (st : ExtScan) : Prop :=
  forall sd, startDot st = Some sd ->
    nth sd path 0 = CHAR_DOT /\ exists e, endPos st = Some e /\ (sd < e)%nat.

(** ** The persisted documents *)

(** A reading of the clock, in milliseconds since the epoch.  The
    documents hold its [toISOString()] rendering, which the instant
    determines. *)
Definition Instant : Type := N.

(** status.json *)
Module Status.
Record t : Type := mk {
  status : JsValue;
  notice : JsValue;
  lastUpdated : Instant
}.
End Status.

(** An entry of gallery.json *)
Module Image.
Record t : Type := mk {
  filename : jstr;
  originalName : jstr;
  uploadedAt : Instant;
  size : N;
  mimetype : jstr
}.
End Image.

(** gallery.json *)
Module Gallery.
Record t : Type := mk { images : list Image.t }.
End Gallery.

(** hero-background.json; [None] is a property that is [null] or absent. *)
Module Hero.
Record t : Type := mk {
  filename : option jstr;
  originalName : option jstr;
  uploadedAt : option Instant;
  size : option N;
  mimetype : option jstr
}.
End Hero.

Inductive UploadDir : Type := GALLERY_UPLOADS_DIR | HERO_UPLOADS_DIR.

Record Disk : Type := mkDisk {
  DATA_FILE : Status.t;
  GALLERY_FILE : Gallery.t;
  HERO_BG_FILE : Hero.t;
  gallery_dir : gset jstr;
  hero_dir : gset jstr
}.

Definition read_dir (target : UploadDir) (d : Disk) : gset jstr :=
  match target with
  | GALLERY_UPLOADS_DIR => gallery_dir d
  | HERO_UPLOADS_DIR => hero_dir d
  end.

Definition write_dir (target : UploadDir) (files : gset jstr) (d : Disk) : Disk :=
  match target with
  | GALLERY_UPLOADS_DIR =>
      {| DATA_FILE := DATA_FILE d; GALLERY_FILE := GALLERY_FILE d;
         HERO_BG_FILE := HERO_BG_FILE d;
         gallery_dir := files; hero_dir := hero_dir d |}
  | HERO_UPLOADS_DIR =>
      {| DATA_FILE := DATA_FILE d; GALLERY_FILE := GALLERY_FILE d;
         HERO_BG_FILE := HERO_BG_FILE d;
         gallery_dir := gallery_dir d; hero_dir := files |}
  end.

Definition write_status (r : Status.t) (d : Disk) : Disk :=
  {| DATA_FILE := r; GALLERY_FILE := GALLERY_FILE d;
     HERO_BG_FILE := HERO_BG_FILE d;
     gallery_dir := gallery_dir d; hero_dir := hero_dir d |}.

Definition write_gallery (g : Gallery.t) (d : Disk) : Disk :=
  {| DATA_FILE := DATA_FILE d; GALLERY_FILE := g;
     HERO_BG_FILE := HERO_BG_FILE d;
     gallery_dir := gallery_dir d; hero_dir := hero_dir d |}.

Definition write_hero (h : Hero.t) (d : Disk) : Disk :=
  {| DATA_FILE := DATA_FILE d; GALLERY_FILE := GALLERY_FILE d;
     HERO_BG_FILE := h;
     gallery_dir := gallery_dir d; hero_dir := hero_dir d |}.

(** [fs.unlink(path.join(dir, name))] for a name that [path.join] keeps in
    the directory (no "/", not ".."): [None] when it throws because no such
    file is there. *)
Definition unlink (target : UploadDir) (name : jstr) (d : Disk) : option Disk :=
  if decide (name ∈ read_dir target d)
  then Some (write_dir target (read_dir target d ∖ {[name]}) d)
  else None.

(** [try { await fs.unlink(...) } catch { console.warn(...) }] *)
Definition try_unlink (target : UploadDir) (name : jstr) (d : Disk) : Disk :=
  default d (unlink target name d).

(** The defaults of [initializeDataFiles] *)
Definition defaultData (now : Instant) : Status.t :=
  {| Status.status := JsBool false; Status.notice := JsString [];
     Status.lastUpdated := now |}.

Definition defaultGallery : Gallery.t := {| Gallery.images := [] |}.

Definition defaultHero : Hero.t :=
  {| Hero.filename := None; Hero.originalName := None;
     Hero.uploadedAt := None; Hero.size := None; Hero.mimetype := None |}.

(** The disk after the first start of the server at instant [now] *)
Definition first_start (now : Instant) : Disk :=
  {| DATA_FILE := defaultData now; GALLERY_FILE := defaultGallery;
     HERO_BG_FILE := defaultHero; gallery_dir := ∅; hero_dir := ∅ |}.

(** ** What a request observes of its environment *)

Record Env : Type := mkEnv {
  (** [Date.now()] in the [filename] callback of the k-th file *)
  dateNow : nat -> N;
  (** [Math.round(Math.random() * 1E9)] there, an integer of 0..10^9 *)
  randomRounded : nat -> N;
  (** the k-th [new Date()] of the route handler *)
  clock : nat -> Instant
}.

(** ** The upload middleware (multer)

    multer is a library: the model follows its documented behaviour for
    disk storage, file filters and limits. *)

(** A file part of a multipart request *)
Module Part.
Record t : Type := mk {
  fieldname : jstr;
  originalname : jstr;
  mimetype : jstr;
  size : N
}.
End Part.

(** An entry of [req.files] *)
Module File.
Record t : Type := mk {
  fieldname : jstr;
  originalname : jstr;
  mimetype : jstr;
  size : N;
  filename : jstr
}.
End File.

Inductive MulterCode : Type :=
  LIMIT_FILE_SIZE | LIMIT_FILE_COUNT | LIMIT_UNEXPECTED_FILE.

Inductive UploadError : Type :=
| MulterError (code : MulterCode)
| PlainError (message : jstr).

(** [name.replace(/[^a-zA-Z0-9.-]/g, '_')] *)
Definition keep_unit (c : N) : bool :=
  ((97 <=? c) && (c <=? 122)) || ((65 <=? c) && (c <=? 90))
  || is_digit c || (c =? 46) || (c =? 45).

Definition sanitize (name : jstr) : jstr :=
  map (fun c => if keep_unit c then c else 95) name.

Definition galleryStorage_filename (env : Env) (k : nat) (file : Part.t) : jstr :=
  let uniqueSuffix :=
    num_to_string (dateNow env k) ++ js "-" ++ num_to_string (randomRounded env k) in
  let sanitizedName := sanitize (Part.originalname file) in
  js "gallery-" ++ uniqueSuffix ++ extname sanitizedName.

Definition heroStorage_filename (env : Env) (k : nat) (file : Part.t) : jstr :=
  let sanitizedName := sanitize (Part.originalname file) in
  js "hero-background" ++ extname sanitizedName.

Definition allowedMimes : list jstr :=
  [js "image/jpeg"; js "image/jpg"; js "image/png"; js "image/gif"; js "image/webp"].

Definition allowedExtensions : list jstr :=
  [js ".jpg"; js ".jpeg"; js ".png"; js ".gif"; js ".webp"].

(** [None] is [cb(null, true)], [Some message] is [cb(new Error(message), false)]. *)
Definition imageFileFilter (file : Part.t) : option jstr :=
  if negb (bool_decide (Part.mimetype file ∈ allowedMimes)) then
    Some (js "Invalid file type. Only images are allowed.")
  else
    let ext := toLowerCase (extname (Part.originalname file)) in
    if negb (bool_decide (ext ∈ allowedExtensions)) then
      Some (js "Invalid file extension. Only .jpg, .jpeg, .png, .gif, .webp are allowed.")
    else None.

Record Multer : Type := mkMulter {
  destination : UploadDir;
  filename : Env -> nat -> Part.t -> jstr;
  fileSize : N;
  files : nat;
  fileFilter : Part.t -> option jstr
}.

Definition uploadGallery : Multer :=
  {| destination := GALLERY_UPLOADS_DIR;
     filename := galleryStorage_filename;
     fileSize := 5 * 1024 * 1024;
     files := 10;
     fileFilter := imageFileFilter |}.

Definition uploadHero : Multer :=
  {| destination := HERO_UPLOADS_DIR;
     filename := heroStorage_filename;
     fileSize := 10 * 1024 * 1024;
     files := 1;
     fileFilter := imageFileFilter |}.

Definition stored_file (m : Multer) (env : Env) (k : nat) (p : Part.t) : File.t :=
  {| File.fieldname := Part.fieldname p;
     File.originalname := Part.originalname p;
     File.mimetype := Part.mimetype p;
     File.size := Part.size p;
     File.filename := filename m env k p |}.

(** On an error multer removes what the request has stored so far. *)
Definition removeUploadedFiles (uploaded : list File.t) (dir : gset jstr) : gset jstr :=
  dir ∖ list_to_set (File.filename <$> uploaded).

(** The file parts of one request, in the order of their arrival, for a
    middleware made by [.single(field)] ([maxCount] 1) or
    [.array(field, maxCount)]: the limit on the number of files, the
    expected field, the file filter, then the storage engine, which writes
    the file under the name its [filename] callback gives, and the limit
    on the size of a file.  The parts are those that name a file: multer
    passes over a part without a file name ([file_parts] leaves them out).
    A file of exactly [fileSize] bytes is let through here, as by the
    multipart parser of multer up to 1.4.4; the one of 1.4.5-lts stops it.
    No statement below depends on that boundary. *)
Fixpoint multer_parts (m : Multer) (env : Env) (field : jstr) (maxCount : nat)
    (uploaded : list File.t) (parts : list Part.t) (dir : gset jstr)
    : gset jstr * (UploadError + list File.t) :=
  match parts with
  | [] => (dir, inr uploaded)
  | p :: rest =>
      let k := length uploaded in
      if bool_decide (files m <= k)%nat then
        (removeUploadedFiles uploaded dir, inl (MulterError LIMIT_FILE_COUNT))
      else if bool_decide (Part.fieldname p ≠ field) || bool_decide (maxCount <= k)%nat then
        (removeUploadedFiles uploaded dir, inl (MulterError LIMIT_UNEXPECTED_FILE))
      else
        match fileFilter m p with
        | Some message =>
            (removeUploadedFiles uploaded dir, inl (PlainError message))
        | None =>
            let file := stored_file m env k p in
            let dir' := {[File.filename file]} ∪ dir in
            if fileSize m <? Part.size p then
              (removeUploadedFiles (uploaded ++ [file]) dir',
               inl (MulterError LIMIT_FILE_SIZE))
            else multer_parts m env field maxCount (uploaded ++ [file]) rest dir'
        end
  end.

Definition multer_run (m : Multer) (env : Env) (field : jstr) (maxCount : nat)
    (parts : list Part.t) (d : Disk) : Disk * (UploadError + list File.t) :=
  let '(dir, result) :=
    multer_parts m env field maxCount [] parts (read_dir (destination m) d) in
  (write_dir (destination m) dir d, result).

(** ** Requests and replies *)

Inductive Request : Type :=
| GET_status
| POST_status (body : Body)
| GET_gallery
| POST_gallery_upload (body : Body) (parts : list Part.t)
| DELETE_gallery (filename : jstr) (body : Body)
| GET_hero_background
| POST_hero_background_upload (body : Body) (parts : list Part.t)
| DELETE_hero_background (body : Body).

Inductive Payload : Type :=
| ErrorBody (error : jstr)               (* { error } *)
| Success (message : jstr)               (* { success: true, message } *)
| StatusDoc (statusData : Status.t)
| GalleryDoc (galleryData : Gallery.t)
| HeroDoc (heroData : Hero.t).

Inductive Reply : Type :=
| Json (code : N) (payload : Payload)    (* res.status(code).json(payload) *)
| Raised (error : UploadError).          (* the upload middleware called next(error) *)

(** ** The request as it arrives

    [express.json] and [express.urlencoded] are installed before the
    routes: each parses a body of its own type into [req.body] and leaves
    [req.body] at [{}] for any other request.  A multipart body is parsed
    by multer, which the two upload routes run after [validatePassword]. *)
Inductive Content : Type :=
| NoContent
| JsonContent (fields : Body)
| UrlencodedContent (fields : Body)
| MultipartContent (fields : Body) (parts : list Part.t).

(** [req.body] when the middlewares of a route start *)
Definition parsed_body (content : Content) : Body :=
  match content with
  | JsonContent fields | UrlencodedContent fields => fields
  | NoContent | MultipartContent _ _ => []
  end.

(** The file parts that multer reads: those of a multipart body that name
    a file *)
Definition file_parts (content : Content) : list Part.t :=
  match content with
  | MultipartContent _ parts => filter (fun p => Part.originalname p <> []) parts
  | _ => []
  end.

Inductive Route : Type :=
| Get_status
| Post_status
| Get_gallery
| Post_gallery_upload
| Delete_gallery (filename : jstr)
| Get_hero_background
| Post_hero_background_upload
| Delete_hero_background.

Definition receive (route : Route) (content : Content) : Request :=
  match route with
  | Get_status => GET_status
  | Post_status => POST_status (parsed_body content)
  | Get_gallery => GET_gallery
  | Post_gallery_upload =>
      POST_gallery_upload (parsed_body content) (file_parts content)
  | Delete_gallery filename => DELETE_gallery filename (parsed_body content)
  | Get_hero_background => GET_hero_background
  | Post_hero_background_upload =>
      POST_hero_background_upload (parsed_body content) (file_parts content)
  | Delete_hero_background => DELETE_hero_background (parsed_body content)
  end.

(** ** Sample requests *)

Definition sample_env : Env :=
  {| dateNow := fun _ => 1700000000000;
     randomRounded := fun _ => 123456789;
     clock := fun _ => 1700000000000 |}.

Definition admin_body : Body :=
  [(js "password", JsString (js "noblesrhyl1121"))].

Definition open_body : Body :=
  [(js "password", JsString (js "noblesrhyl1121"));
   (js "status", JsBool true);
   (js "notice", JsString (js "Open today"))].

Definition guess_body : Body :=
  [(js "password", JsString (js "letmein"));
   (js "status", JsBool true);
   (js "notice", JsString (js "Open today"))].

Definition long_body : Body :=
  [(js "password", JsString (js "noblesrhyl1121"));
   (js "status", JsBool true);
   (js "notice", JsString (repeat 120 501))].

Definition null_notice_body : Body :=
  [(js "password", JsString (js "noblesrhyl1121"));
   (js "status", JsBool false);
   (js "notice", JsNull)].

Definition stall_jpg : Part.t :=
  {| Part.fieldname := js "images"; Part.originalname := js "stall.jpg";
     Part.mimetype := js "image/jpeg"; Part.size := 2048 |}.

Definition leaflet_pdf : Part.t :=
  {| Part.fieldname := js "images"; Part.originalname := js "leaflet.pdf";
     Part.mimetype := js "application/pdf"; Part.size := 2048 |}.

Definition field_jpg : Part.t :=
  {| Part.fieldname := js "heroImage"; Part.originalname := js "field.jpg";
     Part.mimetype := js "image/jpeg"; Part.size := 4096 |}.

Definition field_png : Part.t :=
  {| Part.fieldname := js "heroImage"; Part.originalname := js "field.png";
     Part.mimetype := js "image/png"; Part.size := 4096 |}.

(** The same gallery upload twice, both observing the same clock reading
    and the same draw *)
Definition same_upload_twice : list (Env * Request) :=
  [(sample_env, POST_gallery_upload admin_body [stall_jpg]);
   (sample_env, POST_gallery_upload admin_body [stall_jpg])].

(** A hero upload of a .jpg file followed by one of a .png file *)
Definition jpg_then_png : list (Env * Body * list Part.t) :=
  [(sample_env, admin_body, [field_jpg]); (sample_env, admin_body, [field_png])].

(** ** The error-handling middleware

    What the middleware inspects of the error it is given:
    [error instanceof multer.MulterError], [error.code] and
    [error.message]. *)
Record ThrownError : Type := mkThrown {
  is_multer : bool;
  error_code : jstr;
  error_message : jstr
}.

Definition error_middleware (error : ThrownError) : Reply :=
  if is_multer error then
    if decide (error_code error = js "LIMIT_FILE_SIZE") then
      Json 400 (ErrorBody
        (js "File too large. Maximum size is 5MB for gallery, 10MB for hero."))
    else if decide (error_code error = js "LIMIT_FILE_COUNT") then
      Json 400 (ErrorBody (js "Too many files uploaded."))
    else
      Json 400 (ErrorBody (js "File upload error: " ++ error_message error))
  else if includes (error_message error) (js "Invalid file type")
          || includes (error_message error) (js "Invalid file extension") then
    Json 400 (ErrorBody (error_message error))
  else Json 500 (ErrorBody (js "Internal server error")).

(** ** Start of the server

    What is on the disk when the server starts: each document and each
    upload directory is there or not. *)
Record Files : Type := mkFiles {
  status_json : option Status.t;
  gallery_json : option Gallery.t;
  hero_json : option Hero.t;
  uploads_gallery : option (gset jstr);
  uploads_hero : option (gset jstr)
}.

(** [fs.mkdir(dir, { recursive: true })] keeps a directory that exists. *)
Definition createUploadDirectories (f : Files) : Files :=
  {| status_json := status_json f; gallery_json := gallery_json f;
     hero_json := hero_json f;
     uploads_gallery := Some (default ∅ (uploads_gallery f));
     uploads_hero := Some (default ∅ (uploads_hero f)) |}.

(** A document is written only when [fs.access] fails. *)
Definition initializeDataFiles (now : Instant) (f : Files) : Files :=
  {| status_json := Some (default (defaultData now) (status_json f));
     gallery_json := Some (default defaultGallery (gallery_json f));
     hero_json := Some (default defaultHero (hero_json f));
     uploads_gallery := uploads_gallery f;
     uploads_hero := uploads_hero f |}.

Definition startServer (now : Instant) (f : Files) : Files :=
  initializeDataFiles now (createUploadDirectories f).

Definition no_files : Files :=
  {| status_json := None; gallery_json := None; hero_json := None;
     uploads_gallery := None; uploads_hero := None |}.

(** The files of a running server *)
Definition files_of (d : Disk) : Files :=
  {| status_json := Some (DATA_FILE d); gallery_json := Some (GALLERY_FILE d);
     hero_json := Some (HERO_BG_FILE d);
     uploads_gallery := Some (gallery_dir d);
     uploads_hero := Some (hero_dir d) |}.

(** ** Notions for the properties of names and uploads *)

(** The code units a sanitized name is made of *)
Definition safe_unit (c : N) : bool := keep_unit c || (c =? 95).

Definition count_dots (s : jstr) : nat := count_occ N.eq_dec s CHAR_DOT.

(** What the scan of [extname] keeps true of the dots: a dot is recorded
    only after an end, no dot lies between the recorded dot and the
    recorded end, and while no dot is recorded none lies between the index
    looked at next and the recorded end. *)
Definition scan_dots (path : jstr) (n : nat) (st : ExtScan) : Prop :=
  (forall e, endPos st = Some e -> (n <= e)%nat)
  /\ (endPos st = None -> startDot st = None)
  /\ (forall sd e, startDot st = Some sd -> endPos st = Some e ->
        forall j, (sd < j < e)%nat -> nth j path 0 <> CHAR_DOT)
  /\ (startDot st = None -> forall e, endPos st = Some e ->
        forall j, (n <= j < e)%nat -> nth j path 0 <> CHAR_DOT).

(** The files that the storage engine makes of parts, the first of them
    being the k-th file of the request *)
Fixpoint stored_from (m : Multer) (env : Env) (k : nat) (parts : list Part.t)
    : list File.t :=
  match parts with
  | [] => []
  | p :: rest => stored_file m env k p :: stored_from m env (S k) rest
  end.

(** The entry that the gallery route makes of the k-th part *)
Definition gallery_entry (env : Env) (k : nat) (p : Part.t) : Image.t :=
  {| Image.filename := galleryStorage_filename env k p;
     Image.originalName := Part.originalname p;
     Image.uploadedAt := clock env k;
     Image.size := Part.size p;
     Image.mimetype := Part.mimetype p |}.

(** The body of a request that has one *)
Definition request_body (req : Request) : option Body :=
  match req with
  | GET_status | GET_gallery | GET_hero_background => None
  | POST_status body | POST_gallery_upload body _ | DELETE_gallery _ body
  | POST_hero_background_upload body _ | DELETE_hero_background body => Some body
  end.

(** More sample requests *)

Definition market_png : Part.t :=
  {| Part.fieldname := js "images"; Part.originalname := js "market day.PNG";
     Part.mimetype := js "image/png"; Part.size := 4096 |}.

Definition script_png : Part.t :=
  {| Part.fieldname := js "images"; Part.originalname := js "run.exe";
     Part.mimetype := js "image/png"; Part.size := 4096 |}.

(** The disk after the two gallery uploads and the two hero uploads *)
Definition stocked_requests : list (Env * Request) :=
  [(sample_env, POST_gallery_upload admin_body [stall_jpg]);
   (sample_env, POST_gallery_upload admin_body [stall_jpg]);
   (sample_env, POST_hero_background_upload admin_body [field_jpg]);
   (sample_env, POST_hero_background_upload admin_body [field_png])].

Definition later_env : Env :=
  {| dateNow := fun _ => 1700000000001;
     randomRounded := fun _ => 123456789;
     clock := fun _ => 1700000000001 |}.

(** Two hero uploads as the admin page would send them: multipart, the
    password among the fields *)
Definition hero_forms : list (Env * Route * Content) :=
  [(sample_env, Post_hero_background_upload, MultipartContent admin_body [field_jpg]);
   (later_env, Post_hero_background_upload, MultipartContent admin_body [field_png])].

(** The same gallery image sent twice in that way *)
Definition gallery_forms : list (Env * Route * Content) :=
  [(sample_env, Post_gallery_upload, MultipartContent admin_body [stall_jpg]);
   (later_env, Post_gallery_upload, MultipartContent admin_body [stall_jpg])].

(** A disk whose gallery lists one image and whose hero record names one *)
Definition stocked : Disk :=
  {| DATA_FILE := defaultData 0;
     GALLERY_FILE :=
       {| Gallery.images :=
            [ {| Image.filename := js "gallery-1700000000000-123456789.jpg";
                 Image.originalName := js "stall.jpg";
                 Image.uploadedAt := 1700000000000;
                 Image.size := 2048;
                 Image.mimetype := js "image/jpeg" |} ] |};
     HERO_BG_FILE :=
       {| Hero.filename := Some (js "hero-background.png");
          Hero.originalName := Some (js "field.png");
          Hero.uploadedAt := Some 1700000000000;
          Hero.size := Some 4096;
          Hero.mimetype := Some (js "image/png") |};
     gallery_dir := {[ js "gallery-1700000000000-123456789.jpg" ]};
     hero_dir := {[ js "hero-background.png"; js "hero-background.jpg" ]} |}.

Definition filter_error : ThrownError :=
  {| is_multer := false; error_code := [];
     error_message :=
       js "Invalid file extension. Only .jpg, .jpeg, .png, .gif, .webp are allowed." |}.

Section Server.

(** [process.env.ADMIN_PASSWORD] *)
Variable ADMIN_PASSWORD_env : option jstr.

Definition ADMIN_PASSWORD : jstr :=
  match ADMIN_PASSWORD_env with
  | Some (c :: s) => c :: s
  | _ => js "noblesrhyl1121"
  end.

(** A middleware answers ([Some reply]) or calls [next()] ([None]). *)
Definition validateStatusData (body : Body) : option Reply :=
  let status := get_prop body (js "status") in
  let notice := get_prop body (js "notice") in
  if bool_decide (typeof status ≠ js "boolean") then
    Some (Json 400 (ErrorBody (js "Status must be a boolean value")))
  else if truthy notice && bool_decide (typeof notice ≠ js "string") then
    Some (Json 400 (ErrorBody (js "Notice must be a string")))
  else if truthy notice && length_gt notice 500 then
    Some (Json 400 (ErrorBody (js "Notice must be less than 500 characters")))
  else None.

Definition validatePassword (body : Body) : option Reply :=
  let password := get_prop body (js "password") in
  if negb (truthy password) || strict_ne_string password ADMIN_PASSWORD then
    Some (Json 401 (ErrorBody (js "Invalid password")))
  else None.

Definition get_status (d : Disk) : Reply * Disk :=
  (Json 200 (StatusDoc (DATA_FILE d)), d).

Definition post_status (env : Env) (body : Body) (d : Disk) : Reply * Disk :=
  match validatePassword body with
  | Some reply => (reply, d)
  | None =>
  match validateStatusData body with
  | Some reply => (reply, d)
  | None =>
      let status := get_prop body (js "status") in
      let notice := get_prop body (js "notice") in
      let statusData :=
        {| Status.status := Boolean status;
           Status.notice := js_or notice (JsString []);
           Status.lastUpdated := clock env 0 |} in
      (Json 200 (Success (js "Status updated successfully")),
       write_status statusData d)
  end end.

Definition get_gallery (d : Disk) : Reply * Disk :=
  (Json 200 (GalleryDoc (GALLERY_FILE d)), d).

Definition new_image (env : Env) (k : nat) (file : File.t) : Image.t :=
  {| Image.filename := File.filename file;
     Image.originalName := File.originalname file;
     Image.uploadedAt := clock env k;
     Image.size := File.size file;
     Image.mimetype := File.mimetype file |}.

(** [body] is [req.body] as [validatePassword] finds it, [parts] the file
    parts that [uploadGallery.array] reads after it; [receive] tells which
    pairs a request gives. *)
Definition post_gallery_upload (env : Env) (body : Body) (parts : list Part.t)
    (d : Disk) : Reply * Disk :=
  match validatePassword body with
  | Some reply => (reply, d)
  | None =>
  match multer_run uploadGallery env (js "images") 10 parts d with
  | (d1, inl error) => (Raised error, d1)
  | (d1, inr req_files) =>
      if bool_decide (length req_files = 0)%nat then
        (Json 400 (ErrorBody (js "No files uploaded")), d1)
      else
        let galleryData := GALLERY_FILE d1 in
        let newImages := imap (new_image env) req_files in
        let galleryData' :=
          {| Gallery.images := Gallery.images galleryData ++ newImages |} in
        (Json 200 (Success (num_to_string (N.of_nat (length newImages))
                            ++ js " images uploaded successfully")),
         write_gallery galleryData' d1)
  end end.

(** [images.findIndex(img => img.filename === filename)]; [None] is -1. *)
Fixpoint findIndex (filename : jstr) (images : list Image.t) : option nat :=
  match images with
  | [] => None
  | img :: rest =>
      if decide (Image.filename img = filename) then Some 0%nat
      else S <$> findIndex filename rest
  end.

Definition delete_gallery (filename : jstr) (body : Body) (d : Disk) : Reply * Disk :=
  match validatePassword body with
  | Some reply => (reply, d)
  | None =>
      if bool_decide (filename = []) || includes filename (js "..")
         || includes filename (js "/") then
        (Json 400 (ErrorBody (js "Invalid filename")), d)
      else
        let galleryData := GALLERY_FILE d in
        match findIndex filename (Gallery.images galleryData) with
        | None => (Json 404 (ErrorBody (js "Image not found")), d)
        | Some imageIndex =>
            let d1 := try_unlink GALLERY_UPLOADS_DIR filename d in
            let galleryData' :=
              {| Gallery.images := delete imageIndex (Gallery.images galleryData) |} in
            (Json 200 (Success (js "Image deleted successfully")),
             write_gallery galleryData' d1)
        end
  end.

Definition get_hero_background (d : Disk) : Reply * Disk :=
  (Json 200 (HeroDoc (HERO_BG_FILE d)), d).

Definition hero_of_file (env : Env) (file : File.t) : Hero.t :=
  {| Hero.filename := Some (File.filename file);
     Hero.originalName := Some (File.originalname file);
     Hero.uploadedAt := Some (clock env 0);
     Hero.size := Some (File.size file);
     Hero.mimetype := Some (File.mimetype file) |}.

(** [body] and [parts] as for the gallery upload *)
Definition post_hero_background_upload (env : Env) (body : Body)
    (parts : list Part.t) (d : Disk) : Reply * Disk :=
  match validatePassword body with
  | Some reply => (reply, d)
  | None =>
  match multer_run uploadHero env (js "heroImage") 1 parts d with
  | (d1, inl error) => (Raised error, d1)
  | (d1, inr req_files) =>
      match head req_files with
      | None => (Json 400 (ErrorBody (js "No file uploaded")), d1)
      | Some req_file =>
          (Json 200 (Success (js "Hero background uploaded successfully")),
           write_hero (hero_of_file env req_file) d1)
      end
  end end.

Definition delete_hero_background (body : Body) (d : Disk) : Reply * Disk :=
  match validatePassword body with
  | Some reply => (reply, d)
  | None =>
      let heroData := HERO_BG_FILE d in
      let d1 :=
        match Hero.filename heroData with
        | Some (c :: name) => try_unlink HERO_UPLOADS_DIR (c :: name) d
        | _ => d
        end in
      (Json 200 (Success (js "Hero background deleted successfully")),
       write_hero defaultHero d1)
  end.

Definition handle (env : Env) (req : Request) (d : Disk) : Reply * Disk :=
  match req with
  | GET_status => get_status d
  | POST_status body => post_status env body d
  | GET_gallery => get_gallery d
  | POST_gallery_upload body parts => post_gallery_upload env body parts d
  | DELETE_gallery filename body => delete_gallery filename body d
  | GET_hero_background => get_hero_background d
  | POST_hero_background_upload body parts =>
      post_hero_background_upload env body parts d
  | DELETE_hero_background body => delete_hero_background body d
  end.

(** A sequence of requests, each with what it observes *)
Fixpoint run (reqs : list (Env * Request)) (d : Disk) : Disk :=
  match reqs with
  | [] => d
  | (env, req) :: rest => run rest (snd (handle env req d))
  end.

(** The answer to a request as it arrives *)
Definition serve (env : Env) (route : Route) (content : Content) (d : Disk)
    : Reply * Disk :=
  handle env (receive route content) d.

Fixpoint run_http (calls : list (Env * Route * Content)) (d : Disk) : Disk :=
  match calls with
  | [] => d
  | (env, route, content) :: rest => run_http rest (snd (serve env route content d))
  end.

(** The replies to a sequence of requests *)
Fixpoint replies (calls : list (Env * Route * Content)) (d : Disk) : list Reply :=
  match calls with
  | [] => []
  | (env, route, content) :: rest =>
      fst (serve env route content d)
      :: replies rest (snd (serve env route content d))
  end.

(** A reply that reports success: status 200 with [{ success: true, ... }] *)
Definition succeeded (r : Reply) : bool :=
  match r with
  | Json 200 (Success _) => true
  | _ => false
  end.

(** A sequence of hero uploads as requests, and the names under which the
    storage engine files their parts *)
Definition hero_requests (ups : list (Env * Body * list Part.t))
    : list (Env * Request) :=
  map (fun '(env, body, parts) => (env, POST_hero_background_upload body parts)) ups.

(** What the file filter lets through *)
Definition valid_image (p : Part.t) : Prop :=
  Part.mimetype p ∈ allowedMimes
  /\ toLowerCase (extname (Part.originalname p)) ∈ allowedExtensions.

(** The request body carries the admin password. *)
Definition authorized (body : Body) : Prop :=
  get_prop body (js "password") = JsString ADMIN_PASSWORD.

(** [s] has an occurrence of [t]. *)
Definition contains (s t : jstr) : Prop := exists pre post, s = pre ++ t ++ post.

(** A file name that passes the check of the delete route *)
Definition well_formed_filename (filename : jstr) : Prop :=
  filename <> [] /\ ~ contains filename (js "..") /\ ~ contains filename (js "/").

(** A status record as the data model types it *)
Definition status_typed (r : Status.t) : Prop :=
  (exists b, Status.status r = JsBool b) /\ (exists s, Status.notice r = JsString s).

(** The hero record names no file, or a file of the hero directory: a
    name that [path.join] keeps there. *)
Definition hero_name_stays (d : Disk) : Prop :=
  forall name, Hero.filename (HERO_BG_FILE d) = Some name -> name <> [] ->
    well_formed_filename name /\ name <> js ".".

(** Nothing was ever uploaded: the gallery, the hero record and the two
    upload directories are as the first start made them. *)
Definition bare (d : Disk) : Prop :=
  GALLERY_FILE d = defaultGallery /\ HERO_BG_FILE d = defaultHero
  /\ gallery_dir d = ∅ /\ hero_dir d = ∅.

(** A status record within the bounds of the validation *)
Definition status_bounded (r : Status.t) : Prop :=
  exists b s, Status.status r = JsBool b /\ Status.notice r = JsString s
              /\ (length s <= 500)%nat.


(** A hero record as the server writes them: the default, or the entry
    of a valid image *)
Definition hero_shape (h : Hero.t) : Prop :=
  h = defaultHero
  \/ exists name original at_ size mime,
       h = {| Hero.filename := Some name; Hero.originalName := Some original;
              Hero.uploadedAt := Some at_; Hero.size := Some size;
              Hero.mimetype := Some mime |}
       /\ well_formed_filename name
       /\ starts_with (js "hero-background") name = true
       /\ mime ∈ allowedMimes
       /\ size <= 10 * 1024 * 1024.

(** ** Strings *)

Lemma starts_with_spec (t s : jstr) :
  starts_with t s = true <-> exists post, s = t ++ post.
Proof.
  revert s. induction t as [|a t IH]; intros s; cbn [starts_with].
  - split; [intros _; exists s; reflexivity | reflexivity].
  - destruct s as [|b s].
    + split; [discriminate | intros [post H]; discriminate].
    + destruct (decide (a = b)) as [->|Hne].
      * rewrite IH. split; intros [post H]; exists post.
        -- cbn. congruence.
        -- cbn in H. congruence.
      * split; [discriminate|]. intros [post H]. cbn in H. congruence.
Qed.

Lemma includes_spec (s t : jstr) :
  includes s t = true <-> exists pre post, s = pre ++ t ++ post.
Proof.
  induction s as [|b s IH]; cbn [includes]; rewrite orb_true_iff, starts_with_spec.
  - split.
    + intros [[post H]|H]; [|discriminate]. exists [], post. exact H.
    + intros [pre [post H]]. left.
      destruct pre; [exists post; exact H | discriminate].
  - rewrite IH. split.
    + intros [[post H]|[pre [post H]]].
      * exists [], post. exact H.
      * exists (b :: pre), post. cbn. congruence.
    + intros [[|c pre] [post H]].
      * left. exists post. exact H.
      * right. exists pre, post. cbn in H. congruence.
Qed.

Lemma digits_split (s1 s2 r1 r2 : jstr) :
  Forall (fun c => is_digit c = true) s1 ->
  Forall (fun c => is_digit c = true) s2 ->
  stops r1 -> stops r2 ->
  s1 ++ r1 = s2 ++ r2 -> s1 = s2 /\ r1 = r2.
Proof.
  intros D1. revert s2. induction D1 as [|a s1 Ha D1 IH]; intros s2 D2 S1 S2 H.
  - destruct D2 as [|b s2 Hb D2]; [split; [reflexivity | exact H]|].
    cbn in H. subst r1. cbn in S1. congruence.
  - destruct D2 as [|b s2 Hb D2].
    + cbn in H. subst r2. cbn in S2. congruence.
    + cbn in H. injection H as -> H.
      destruct (IH s2 D2 S1 S2 H) as [-> ->]. split; reflexivity.
Qed.

Lemma uint_units_digits (u : uint) :
  Forall (fun c => is_digit c = true) (uint_units u).
Proof. induction u; constructor; auto. Qed.

Lemma uint_units_inj (u v : uint) : uint_units u = uint_units v -> u = v.
Proof.
  revert v. induction u; destruct v; cbn; intros H;
    try discriminate; try reflexivity; injection H as H; f_equal; auto.
Qed.

Lemma num_to_string_inj (m n : N) : num_to_string m = num_to_string n -> m = n.
Proof.
  unfold num_to_string. intros H. apply uint_units_inj in H.
  rewrite <- (DecimalN.Unsigned.of_to m), <- (DecimalN.Unsigned.of_to n).
  congruence.
Qed.

(** ** [path.extname] yields nothing or a dot and what follows it *)

Lemma extname_scan_inv (path : jstr) (n : nat) (st : ExtScan) :
  scan_inv path st ->
  (forall e, endPos st = Some e -> (n <= e)%nat) ->
  scan_inv path (extname_scan path n st).
Proof.
  revert st. induction n as [|i IH]; intros st Hinv Hend; cbn [extname_scan].
  - exact Hinv.
  - destruct (decide (nth i path 0 = CHAR_FORWARD_SLASH)) as [Hs|Hs].
    + destruct (matchedSlash st).
      * apply IH; [exact Hinv|]. intros e He. specialize (Hend e He). lia.
      * exact Hinv.
    + destruct st as [sD sP eP mS pD]. unfold scan_inv in Hinv. cbn in Hinv, Hend.
      apply IH.
      * unfold mark_dot, mark_end, scan_inv.
        destruct (decide (nth i path 0 = CHAR_DOT)) as [Hd|Hd];
          destruct eP as [e|]; destruct sD as [sd|]; cbn; intros sd' Hsd';
          first
            [ discriminate
            | exact (Hinv _ Hsd')
            | exfalso; destruct (Hinv _ eq_refl) as [_ [? [? _]]]; discriminate
            | injection Hsd' as <-; split; [exact Hd|];
              eexists; split; [reflexivity|];
              first [lia | specialize (Hend _ eq_refl); lia] ].
      * unfold mark_dot, mark_end.
        destruct (decide (nth i path 0 = CHAR_DOT)) as [Hd|Hd];
          destruct eP as [e|]; destruct sD as [sd|]; cbn; intros e' He';
          injection He' as <-;
          first [lia | specialize (Hend _ eq_refl); lia].
Qed.

Lemma drop_at_dot (path : jstr) (i : nat) :
  nth i path 0 = CHAR_DOT -> exists r, drop i path = CHAR_DOT :: r.
Proof.
  revert i. induction path as [|c path IH]; intros [|i] H; cbn in *;
    try discriminate.
  - exists path. congruence.
  - apply IH, H.
Qed.

Lemma extname_shape (path : jstr) :
  extname path = [] \/ exists r, extname path = CHAR_DOT :: r.
Proof.
  unfold extname.
  pose proof (extname_scan_inv path (length path) scan_start) as H.
  destruct (startDot (extname_scan path (length path) scan_start)) as [sd|] eqn:Es;
    [|left; reflexivity].
  destruct (endPos (extname_scan path (length path) scan_start)) as [e|] eqn:Ee;
    [|left; reflexivity].
  destruct (_ || _); [left; reflexivity|]. right.
  destruct (H ltac:(intros ? ?; discriminate) ltac:(intros ? ?; discriminate) sd Es)
    as [Hdot [e' [He' Hlt]]].
  rewrite Ee in He'. injection He' as <-.
  destruct (drop_at_dot path sd Hdot) as [r Hr].
  unfold slice. rewrite Hr.
  destruct (e - sd)%nat as [|k] eqn:Ek; [lia|].
  exists (take k r). reflexivity.
Qed.

Lemma extname_stops (path : jstr) : stops (extname path).
Proof.
  destruct (extname_shape path) as [->|[r ->]]; [exact I | reflexivity].
Qed.

(** ** The admin gate *)

Lemma ADMIN_PASSWORD_nonempty : ADMIN_PASSWORD <> [].
Proof.
  unfold ADMIN_PASSWORD.
  destruct ADMIN_PASSWORD_env as [[|c s]|]; discriminate.
Qed.

Lemma validatePassword_next (body : Body) :
  validatePassword body = None <-> authorized body.
Proof.
  unfold validatePassword, authorized.
  destruct (get_prop body (js "password")) as [| |b|x|s|l|o] eqn:E; cbn [truthy].
  1-2: split; discriminate.
  - destruct b; split; discriminate.
  - destruct x; split; discriminate.
  - destruct s as [|c s]; cbn [negb orb strict_ne_string].
    + split; [discriminate|]. intros H; inversion H as [H1].
      exfalso. apply ADMIN_PASSWORD_nonempty. congruence.
    + case_bool_decide as Hs; split; try discriminate; try congruence.
  - split; discriminate.
  - split; discriminate.
Qed.

Lemma validatePassword_reject (body : Body) :
  ~ authorized body ->
  validatePassword body = Some (Json 401 (ErrorBody (js "Invalid password"))).
Proof.
  intros H. destruct (validatePassword body) as [r|] eqn:E.
  - unfold validatePassword in E.
    destruct (_ || _); congruence.
  - apply validatePassword_next in E. contradiction.
Qed.

Lemma gate_cases (body : Body) :
  (authorized body /\ validatePassword body = None)
  \/ (~ authorized body /\
      validatePassword body = Some (Json 401 (ErrorBody (js "Invalid password")))).
Proof.
  destruct (validatePassword body) as [r|] eqn:E.
  - right. assert (Hn : ~ authorized body).
    { intros A. apply validatePassword_next in A. congruence. }
    split; [exact Hn|]. rewrite <- E. apply validatePassword_reject, Hn.
  - left. split; [apply validatePassword_next, E | reflexivity].
Qed.

(** The request passes the gate. *)
Ltac pass_gate H := apply validatePassword_next in H; rewrite H.

(** A [typeof] test that the value at hand meets *)
Ltac typeof_meets :=
  match goal with
  | |- context [bool_decide (typeof ?v ≠ ?t)] =>
      rewrite (bool_decide_eq_false_2 (typeof v ≠ t))
        by (let A := fresh in intros A; apply A; reflexivity)
  end.

(** ** Status *)

Lemma validateStatusData_falsy_notice (body : Body) :
  truthy (get_prop body (js "notice")) = false ->
  validateStatusData body =
    if bool_decide (typeof (get_prop body (js "status")) ≠ js "boolean")
    then Some (Json 400 (ErrorBody (js "Status must be a boolean value")))
    else None.
Proof.
  intros H. unfold validateStatusData. rewrite H. reflexivity.
Qed.

Lemma post_status_typed (env : Env) (body : Body) (d : Disk) :
  status_typed (DATA_FILE d) ->
  status_typed (DATA_FILE (snd (post_status env body d))).
Proof.
  intros Hd. unfold post_status.
  destruct (validatePassword body); [exact Hd|].
  unfold validateStatusData.
  case_bool_decide as Hs; [exact Hd|].
  destruct (get_prop body (js "notice")) as [| |b|x|s|l|o] eqn:En;
    cbn [truthy andb js_or snd DATA_FILE write_status Status.status Status.notice];
    try (split; eexists; reflexivity).
  - destruct b; cbn; [exact Hd | split; eexists; reflexivity].
  - destruct x; cbn; try exact Hd; split; eexists; reflexivity.
  - destruct s as [|c s]; cbn [andb]; [split; eexists; reflexivity|].
    typeof_meets.
    cbn [length_gt]. case_bool_decide; [exact Hd|].
    unfold js_or; cbn. split; eexists; reflexivity.
  - exact Hd.
  - exact Hd.
Qed.

Lemma handle_status_typed (env : Env) (req : Request) (d : Disk) :
  status_typed (DATA_FILE d) ->
  status_typed (DATA_FILE (snd (handle env req d))).
Proof.
  intros Hd. destruct req as [|body| |body parts|f body| |body parts|body];
    cbn [handle get_status get_gallery get_hero_background snd]; try exact Hd.
  - apply post_status_typed, Hd.
  - unfold post_gallery_upload. destruct (validatePassword body); [exact Hd|].
    unfold multer_run.
    destruct (multer_parts _ _ _ _ _ _ _) as [dir [e|fs]]; cbn; [exact Hd|].
    case_bool_decide; exact Hd.
  - unfold delete_gallery. destruct (validatePassword body); [exact Hd|].
    destruct (_ || _); [exact Hd|].
    destruct (findIndex _ _); [|exact Hd].
    cbn. unfold try_unlink, unlink. destruct (decide _); exact Hd.
  - unfold post_hero_background_upload. destruct (validatePassword body); [exact Hd|].
    unfold multer_run.
    destruct (multer_parts _ _ _ _ _ _ _) as [dir [e|fs]]; cbn; [exact Hd|].
    destruct (head fs); exact Hd.
  - unfold delete_hero_background. destruct (validatePassword body); [exact Hd|].
    cbn. destruct (Hero.filename _) as [[|c n]|]; try exact Hd.
    unfold try_unlink, unlink. destruct (decide _); exact Hd.
Qed.

Lemma run_status_typed (reqs : list (Env * Request)) (d : Disk) :
  status_typed (DATA_FILE d) -> status_typed (DATA_FILE (run reqs d)).
Proof.
  revert d. induction reqs as [|[env req] rest IH]; intros d Hd; [exact Hd|].
  cbn [run]. apply IH, handle_status_typed, Hd.
Qed.

Lemma falsy_values (v : JsValue) :
  truthy v = false <->
  v = JsUndefined \/ v = JsNull \/ v = JsBool false \/ v = JsString []
  \/ v = JsNumber S754_nan \/ exists sign, v = JsNumber (S754_zero sign).
Proof.
  split.
  - destruct v as [| |[]|[]|[]|l|o]; cbn; intros H; try discriminate; eauto 10.
  - intros [->|[->|[->|[->|[->|[sign ->]]]]]]; reflexivity.
Qed.

Lemma validateStatusData_next (body : Body) (b : bool) (s : jstr) :
  get_prop body (js "status") = JsBool b ->
  get_prop body (js "notice") = JsString s ->
  (length s <= 500)%nat ->
  validateStatusData body = None.
Proof.
  intros Hs Hn Hl. unfold validateStatusData. rewrite Hs, Hn.
  typeof_meets.
  rewrite (bool_decide_eq_false_2 (typeof (JsString s) ≠ js "string"))
    by (intros A; apply A; reflexivity).
  rewrite andb_false_r. unfold length_gt.
  rewrite bool_decide_eq_false_2 by lia. rewrite andb_false_r. reflexivity.
Qed.

(** C1: for a boolean status and a string notice of at most 500 code
    units, SetStatus with the admin password answers success and stores
    exactly that status and notice with the clock reading of the write;
    GetStatus then returns that record. *)
Theorem set_status_then_get_status (env env' : Env) (body : Body) (d : Disk)
    (b : bool) (s : jstr) :
  authorized body ->
  get_prop body (js "status") = JsBool b ->
  get_prop body (js "notice") = JsString s ->
  (length s <= 500)%nat ->
  let written :=
    {| Status.status := JsBool b; Status.notice := JsString s;
       Status.lastUpdated := clock env 0 |} in
  handle env (POST_status body) d =
    (Json 200 (Success (js "Status updated successfully")), write_status written d)
  /\ handle env' GET_status (write_status written d) =
    (Json 200 (StatusDoc written), write_status written d).
Proof.
  intros Ha Hs Hn Hl written. split; [|reflexivity].
  cbn [handle]. unfold post_status.
  pass_gate Ha.
  rewrite (validateStatusData_next body b s Hs Hn Hl).
  rewrite Hs, Hn. unfold written, Boolean, js_or.
  destruct b, s; reflexivity.
Qed.

(** C4: a SetStatus request whose password is missing or is anything but
    the admin secret is answered 401 by the gate and leaves the disk, the
    status record included, as it was. *)
Theorem wrong_password_rejected (env : Env) (body : Body) (d : Disk) :
  get_prop body (js "password") <> JsString ADMIN_PASSWORD ->
  validatePassword body = Some (Json 401 (ErrorBody (js "Invalid password")))
  /\ handle env (POST_status body) d =
       (Json 401 (ErrorBody (js "Invalid password")), d).
Proof.
  intros H. pose proof (validatePassword_reject body H) as E.
  split; [exact E|]. cbn [handle]. unfold post_status. rewrite E. reflexivity.
Qed.

(** C5: a SetStatus request with the admin password and a string notice
    of more than 500 code units is answered 400 by the validation, before
    anything is written: the disk is as it was. *)
Theorem long_notice_rejected (env : Env) (body : Body) (d : Disk) (s : jstr) :
  authorized body ->
  get_prop body (js "notice") = JsString s ->
  (500 < length s)%nat ->
  handle env (POST_status body) d =
    (Json 400 (ErrorBody
       (if bool_decide (typeof (get_prop body (js "status")) ≠ js "boolean")
        then js "Status must be a boolean value"
        else js "Notice must be less than 500 characters")), d).
Proof.
  intros Ha Hn Hl. cbn [handle]. unfold post_status.
  pass_gate Ha.
  unfold validateStatusData. rewrite Hn.
  case_bool_decide as Hs; [reflexivity|].
  rewrite (bool_decide_eq_false_2 (typeof (JsString s) ≠ js "string"))
    by (intros A; apply A; reflexivity).
  rewrite andb_false_r. unfold length_gt.
  rewrite bool_decide_eq_true_2 by lia.
  destruct s as [|c s]; [cbn in Hl; lia | reflexivity].
Qed.

(** C9: in every state the server reaches from its first start, a
    SetStatus request with the admin password and a falsy notice
    (undefined, null, false, a zero, NaN or the empty string) passes the
    checks on the notice, and with a boolean status it writes a status
    record whose notice is the empty string, which GetStatus then returns;
    the stored status record has a boolean status and a string notice
    before and after the request. *)
Theorem falsy_notice_stored_empty (now : Instant) (reqs : list (Env * Request))
    (env env' : Env) (body : Body) :
  authorized body ->
  truthy (get_prop body (js "notice")) = false ->
  let d := run reqs (first_start now) in
  let d' := snd (handle env (POST_status body) d) in
  validateStatusData body =
    (if bool_decide (typeof (get_prop body (js "status")) ≠ js "boolean")
     then Some (Json 400 (ErrorBody (js "Status must be a boolean value")))
     else None)
  /\ (forall b, get_prop body (js "status") = JsBool b ->
       let stored :=
         {| Status.status := JsBool b; Status.notice := JsString [];
            Status.lastUpdated := clock env 0 |} in
       handle env (POST_status body) d =
         (Json 200 (Success (js "Status updated successfully")),
          write_status stored d)
       /\ DATA_FILE d' = stored
       /\ Status.notice (DATA_FILE d') = JsString []
       /\ handle env' GET_status d' = (Json 200 (StatusDoc stored), d'))
  /\ status_typed (DATA_FILE d)
  /\ status_typed (DATA_FILE d').
Proof.
  intros Ha Hn d d'.
  assert (Hd : status_typed (DATA_FILE d)).
  { apply run_status_typed. split; eexists; reflexivity. }
  split; [apply validateStatusData_falsy_notice, Hn|].
  split; [|split; [exact Hd | apply handle_status_typed, Hd]].
  intros b Hs stored.
  assert (E : handle env (POST_status body) d =
              (Json 200 (Success (js "Status updated successfully")),
               write_status stored d)).
  { cbn [handle]. unfold post_status. pass_gate Ha.
    rewrite (validateStatusData_falsy_notice body Hn), Hs.
    typeof_meets.
    unfold js_or. rewrite Hn. unfold Boolean, stored. destruct b; reflexivity. }
  split; [exact E|]. unfold d'. rewrite E. cbn [snd].
  split; [reflexivity|]. split; reflexivity.
Qed.

(** ** Gallery *)

Lemma write_dir_read_dir (target : UploadDir) (d : Disk) :
  write_dir target (read_dir target d) d = d.
Proof. destruct target, d; reflexivity. Qed.

Lemma not_contains (s t : jstr) : includes s t = false -> ~ contains s t.
Proof.
  intros H C. apply includes_spec in C. congruence.
Qed.

Lemma findIndex_None (filename : jstr) (images : list Image.t) :
  (forall img, img ∈ images -> Image.filename img <> filename) ->
  findIndex filename images = None.
Proof.
  induction images as [|img rest IH]; intros H; cbn [findIndex]; [reflexivity|].
  destruct (decide (Image.filename img = filename)) as [E|_].
  - exfalso. apply (H img); [left | exact E].
  - rewrite IH; [reflexivity|]. intros i Hi. apply H. right. exact Hi.
Qed.

Lemma multer_run_single_rejected (m : Multer) (env : Env) (field : jstr)
    (maxCount : nat) (p : Part.t) (d : Disk) (message : jstr) :
  fileFilter m p = Some message ->
  (0 < files m)%nat -> (0 < maxCount)%nat ->
  multer_run m env field maxCount [p] d =
    (d, inl (if bool_decide (Part.fieldname p ≠ field)
             then MulterError LIMIT_UNEXPECTED_FILE
             else PlainError message)).
Proof.
  intros Hf H1 H2. unfold multer_run. cbn [multer_parts length].
  rewrite (bool_decide_eq_false_2 (files m <= 0)%nat) by lia.
  rewrite (bool_decide_eq_false_2 (maxCount <= 0)%nat) by lia.
  rewrite orb_false_r, Hf. unfold removeUploadedFiles.
  cbn [fmap list_fmap list_to_set foldr]. rewrite difference_empty_L.
  case_bool_decide; rewrite write_dir_read_dir; reflexivity.
Qed.

(** C6: a gallery upload of one file whose declared MIME type is not
    allowed is turned away, by the gate (401) or by the upload middleware,
    which passes the error of the file filter on; in both cases the disk,
    the gallery directory and the gallery record included, is as it was. *)
Theorem disallowed_mime_rejected (env : Env) (body : Body) (p : Part.t) (d : Disk) :
  Part.mimetype p ∉ allowedMimes ->
  (~ authorized body /\
   handle env (POST_gallery_upload body [p]) d =
     (Json 401 (ErrorBody (js "Invalid password")), d))
  \/ (authorized body /\ exists error,
       handle env (POST_gallery_upload body [p]) d = (Raised error, d)
       /\ (Part.fieldname p = js "images" ->
           error = PlainError (js "Invalid file type. Only images are allowed."))).
Proof.
  intros Hm. cbn [handle]. unfold post_gallery_upload.
  destruct (gate_cases body) as [[Ha E]|[Hn E]]; rewrite E.
  - right. split; [exact Ha|].
    destruct (imageFileFilter p) as [message|] eqn:Ef.
    2:{ unfold imageFileFilter in Ef.
        rewrite bool_decide_eq_false_2 in Ef by exact Hm. discriminate. }
    rewrite (multer_run_single_rejected uploadGallery env (js "images") 10 p d message)
      by (try exact Ef; cbn; lia).
    eexists. split; [reflexivity|]. intros F.
    rewrite bool_decide_eq_false_2 by (intros A; apply A; exact F).
    unfold imageFileFilter in Ef.
    rewrite bool_decide_eq_false_2 in Ef by exact Hm. cbn [negb] in Ef.
    injection Ef as <-. reflexivity.
  - left. split; [exact Hn | reflexivity].
Qed.

Lemma imageFileFilter_accepts (p : Part.t) :
  valid_image p -> imageFileFilter p = None.
Proof.
  intros [Hm He]. unfold imageFileFilter.
  rewrite bool_decide_eq_true_2 by exact Hm. cbn [negb].
  rewrite bool_decide_eq_true_2 by exact He. reflexivity.
Qed.

(** The name a gallery file is stored under tells the clock reading and
    the draw it was made from. *)
Lemma galleryStorage_filename_inj (env env' : Env) (k k' : nat) (p p' : Part.t) :
  galleryStorage_filename env k p = galleryStorage_filename env' k' p' ->
  dateNow env k = dateNow env' k' /\ randomRounded env k = randomRounded env' k'.
Proof.
  unfold galleryStorage_filename, num_to_string. intros H.
  apply app_inv_head in H. rewrite <- !app_assoc in H.
  change (js "-") with [45] in H. cbn [app] in H.
  apply digits_split in H; try apply uint_units_digits; try reflexivity.
  destruct H as [Ht H]. injection H as H.
  apply digits_split in H; try apply uint_units_digits; try apply extname_stops.
  destruct H as [Hr _].
  split; apply num_to_string_inj; assumption.
Qed.

(** C7: deleting, with the admin password, a well-formed file name that
    no entry of the gallery record carries is answered 404 and leaves the
    disk, the gallery record included, as it was. *)
Theorem delete_unknown_not_found (env : Env) (filename : jstr) (body : Body) (d : Disk) :
  authorized body ->
  well_formed_filename filename ->
  (forall img, img ∈ Gallery.images (GALLERY_FILE d) ->
     Image.filename img <> filename) ->
  handle env (DELETE_gallery filename body) d =
    (Json 404 (ErrorBody (js "Image not found")), d).
Proof.
  intros Ha [Hne [Hdots Hslash]] Habsent. cbn [handle]. unfold delete_gallery.
  pass_gate Ha.
  rewrite bool_decide_eq_false_2 by exact Hne.
  destruct (includes filename (js "..")) eqn:E1.
  { exfalso. apply Hdots, includes_spec, E1. }
  destruct (includes filename (js "/")) eqn:E2.
  { exfalso. apply Hslash, includes_spec, E2. }
  cbn [orb]. rewrite (findIndex_None _ _ Habsent). reflexivity.
Qed.

(** C8: a delete request whose file name contains ".." or "/" is answered
    with a client error, 401 by the gate or 400 by the check of the name,
    whatever the disk holds, and the disk is as it was. *)
Theorem traversal_rejected (env : Env) (filename : jstr) (body : Body) (d : Disk) :
  contains filename (js "..") \/ contains filename (js "/") ->
  (authorized body /\
   handle env (DELETE_gallery filename body) d =
     (Json 400 (ErrorBody (js "Invalid filename")), d))
  \/ (~ authorized body /\
      handle env (DELETE_gallery filename body) d =
        (Json 401 (ErrorBody (js "Invalid password")), d)).
Proof.
  intros Hbad. cbn [handle]. unfold delete_gallery.
  destruct (gate_cases body) as [[Ha E]|[Hn E]]; rewrite E.
  2:{ right. split; [exact Hn | reflexivity]. }
  - left. split; [exact Ha|].
    assert (Hor : includes filename (js "..") || includes filename (js "/") = true).
    { apply orb_true_iff. destruct Hbad as [H|H]; [left|right];
        apply includes_spec, H. }
    rewrite <- orb_assoc, Hor, orb_true_r. reflexivity.
Qed.

(** ** Hero background *)

(** C10: DeleteHero with the admin password answers success from every
    disk, whatever the hero record names and whether or not that file is
    there, and leaves the hero record at the empty default; a second run
    answers the same and changes nothing more. *)
Theorem delete_hero_idempotent (env : Env) (body : Body) (d : Disk) :
  authorized body ->
  exists d',
    handle env (DELETE_hero_background body) d =
      (Json 200 (Success (js "Hero background deleted successfully")), d')
    /\ HERO_BG_FILE d' = defaultHero
    /\ handle env (DELETE_hero_background body) d' =
      (Json 200 (Success (js "Hero background deleted successfully")), d').
Proof.
  intros Ha. cbn [handle]. unfold delete_hero_background.
  pass_gate Ha.
  eexists. split; [reflexivity|]. split; [reflexivity|].
  cbn [HERO_BG_FILE write_hero defaultHero Hero.filename].
  reflexivity.
Qed.

(** ** Further properties of the gate and of the status routes *)

Lemma validateStatusData_next_inv (body : Body) :
  validateStatusData body = None ->
  (exists b, get_prop body (js "status") = JsBool b)
  /\ (truthy (get_prop body (js "notice")) = false
      \/ exists s, get_prop body (js "notice") = JsString s /\ (length s <= 500)%nat).
Proof.
  unfold validateStatusData.
  destruct (get_prop body (js "status")) as [| |b|x|s|l|o];
    (case_bool_decide as Hs; [discriminate|]);
    try (vm_compute in Hs; discriminate Hs).
  intros H. split; [exists b; reflexivity|].
  destruct (get_prop body (js "notice")) as [| |b'|x|s|l|o];
    try (left; reflexivity).
  - destruct b'; [discriminate | left; reflexivity].
  - destruct x; try (left; reflexivity); discriminate.
  - destruct s as [|c s]; [left; reflexivity|]. right.
    exists (c :: s). split; [reflexivity|].
    cbn [truthy andb] in H. case_bool_decide as Hn; [discriminate|].
    cbn [length_gt] in H. case_bool_decide; [discriminate | lia].
  - discriminate.
  - discriminate.
Qed.

Lemma handle_status_cases (env : Env) (req : Request) (d : Disk) :
  DATA_FILE (snd (handle env req d)) = DATA_FILE d
  \/ exists body, req = POST_status body
       /\ validatePassword body = None /\ validateStatusData body = None
       /\ DATA_FILE (snd (handle env req d)) =
            {| Status.status := Boolean (get_prop body (js "status"));
               Status.notice := js_or (get_prop body (js "notice")) (JsString []);
               Status.lastUpdated := clock env 0 |}.
Proof.
  destruct req as [|body| |body parts|f body| |body parts|body];
    cbn [handle get_status get_gallery get_hero_background snd];
    try (left; reflexivity).
  - unfold post_status.
    destruct (validatePassword body) eqn:Ep; [left; reflexivity|].
    destruct (validateStatusData body) eqn:Ev; [left; reflexivity|].
    right. exists body. cbn [snd DATA_FILE write_status].
    split; [reflexivity|]. split; [exact Ep|]. split; [exact Ev | reflexivity].
  - left. unfold post_gallery_upload. destruct (validatePassword body); [reflexivity|].
    unfold multer_run.
    destruct (multer_parts _ _ _ _ _ _ _) as [dir [e|fs]]; cbn; [reflexivity|].
    case_bool_decide; reflexivity.
  - left. unfold delete_gallery. destruct (validatePassword body); [reflexivity|].
    destruct (_ || _); [reflexivity|].
    destruct (findIndex _ _); [|reflexivity].
    cbn. unfold try_unlink, unlink. destruct (decide _); reflexivity.
  - left. unfold post_hero_background_upload.
    destruct (validatePassword body); [reflexivity|].
    unfold multer_run.
    destruct (multer_parts _ _ _ _ _ _ _) as [dir [e|fs]]; cbn; [reflexivity|].
    destruct (head fs); reflexivity.
  - left. unfold delete_hero_background. destruct (validatePassword body); [reflexivity|].
    cbn. destruct (Hero.filename _) as [[|c n]|]; try reflexivity.
    unfold try_unlink, unlink. destruct (decide _); reflexivity.
Qed.

Lemma run_status_bounded (reqs : list (Env * Request)) (d : Disk) :
  status_bounded (DATA_FILE d) -> status_bounded (DATA_FILE (run reqs d)).
Proof.
  revert d. induction reqs as [|[env req] rest IH]; intros d Hd; [exact Hd|].
  cbn [run]. apply IH.
  destruct (handle_status_cases env req d) as [E|[body [_ [_ [Hv E]]]]];
    rewrite E; [exact Hd|].
  destruct (validateStatusData_next_inv body Hv) as [[b Hb] Hn].
  rewrite Hb. unfold Boolean, js_or.
  destruct Hn as [Hf|[s [Hs Hl]]].
  - rewrite Hf. exists (truthy (JsBool b)), []. cbn. repeat split. lia.
  - rewrite Hs. destruct s as [|c s]; cbn [truthy].
    + exists b, []. cbn. destruct b; repeat split; lia.
    + exists b, (c :: s). destruct b; repeat split; exact Hl.
Qed.

(** X1: the gate lets a body through exactly when its password is the
    string of [ADMIN_PASSWORD], or the default string when that variable
    is unset or empty; every other body is answered 401.  The string is
    never empty. *)
Theorem gate_accepts_exactly_the_secret (body : Body) :
  let secret :=
    match ADMIN_PASSWORD_env with
    | Some (c :: s) => c :: s
    | _ => js "noblesrhyl1121"
    end in
  secret <> []
  /\ (validatePassword body = None <->
      get_prop body (js "password") = JsString secret)
  /\ (get_prop body (js "password") <> JsString secret ->
      validatePassword body = Some (Json 401 (ErrorBody (js "Invalid password")))).
Proof.
  intros secret. split; [exact ADMIN_PASSWORD_nonempty|].
  split; [apply validatePassword_next | apply validatePassword_reject].
Qed.


(** X3: in every state the server reaches from its first start, the
    stored status is a boolean and the stored notice is a string of at
    most 500 code units. *)
Theorem stored_notice_bounded (now : Instant) (reqs : list (Env * Request)) :
  status_bounded (DATA_FILE (run reqs (first_start now))).
Proof.
  apply run_status_bounded. exists false, []. cbn. repeat split. lia.
Qed.

(** X4: a request without the admin password changes nothing on the
    disk, whichever route it takes; when it takes a route behind the gate
    it is answered 401. *)
Theorem unauthorized_request_changes_nothing (env : Env) (req : Request) (d : Disk) :
  (forall body, request_body req = Some body -> ~ authorized body) ->
  snd (handle env req d) = d
  /\ (forall body, request_body req = Some body ->
      fst (handle env req d) = Json 401 (ErrorBody (js "Invalid password"))).
Proof.
  intros H.
  destruct req as [|body| |body parts|f body| |body parts|body];
    cbn [handle get_status get_gallery get_hero_background snd fst];
    try (split; [reflexivity | intros b Hb; discriminate]);
    specialize (H body eq_refl);
    [unfold post_status | unfold post_gallery_upload | unfold delete_gallery
    | unfold post_hero_background_upload | unfold delete_hero_background ];
    rewrite (validatePassword_reject body H);
    (split; [reflexivity | intros b Hb; reflexivity]).
Qed.

Lemma multer_run_frame (m : Multer) (env : Env) (field : jstr) (maxCount : nat)
    (parts : list Part.t) (d : Disk) :
  let d1 := fst (multer_run m env field maxCount parts d) in
  DATA_FILE d1 = DATA_FILE d /\ GALLERY_FILE d1 = GALLERY_FILE d
  /\ HERO_BG_FILE d1 = HERO_BG_FILE d
  /\ (destination m = GALLERY_UPLOADS_DIR -> hero_dir d1 = hero_dir d)
  /\ (destination m = HERO_UPLOADS_DIR -> gallery_dir d1 = gallery_dir d).
Proof.
  unfold multer_run.
  destruct (multer_parts _ _ _ _ _ _ _) as [dir r]. cbn [fst].
  destruct (destination m); cbn; repeat split; intros; congruence.
Qed.

(** X5: on a disk whose hero record names no file or a file of the hero
    directory, every route keeps to its own record: a status update leaves
    the gallery, the hero record and both directories as they were, the
    gallery routes leave the status, the hero record and the hero
    directory, the hero routes leave the status, the gallery record and the
    gallery directory, and the reading routes leave everything. *)
Theorem routes_touch_only_their_record (env : Env) (req : Request) (d : Disk) :
  hero_name_stays d ->
  let d' := snd (handle env req d) in
  match req with
  | GET_status | GET_gallery | GET_hero_background => d' = d
  | POST_status _ =>
      GALLERY_FILE d' = GALLERY_FILE d /\ HERO_BG_FILE d' = HERO_BG_FILE d
      /\ gallery_dir d' = gallery_dir d /\ hero_dir d' = hero_dir d
  | POST_gallery_upload _ _ | DELETE_gallery _ _ =>
      DATA_FILE d' = DATA_FILE d /\ HERO_BG_FILE d' = HERO_BG_FILE d
      /\ hero_dir d' = hero_dir d
  | POST_hero_background_upload _ _ | DELETE_hero_background _ =>
      DATA_FILE d' = DATA_FILE d /\ GALLERY_FILE d' = GALLERY_FILE d
      /\ gallery_dir d' = gallery_dir d
  end.
Proof.
  intros _.
  destruct req as [|body| |body parts|f body| |body parts|body];
    cbn [handle get_status get_gallery get_hero_background snd]; try reflexivity.
  - unfold post_status. destruct (validatePassword body); [repeat split|].
    destruct (validateStatusData body); repeat split.
  - unfold post_gallery_upload. destruct (validatePassword body); [repeat split|].
    pose proof (multer_run_frame uploadGallery env (js "images") 10 parts d) as F.
    destruct (multer_run _ _ _ _ _ _) as [d1 [e|fs]]; cbn [fst] in F;
      destruct F as [F1 [F2 [F3 [F4 _]]]]; specialize (F4 eq_refl).
    + cbn. repeat split; assumption.
    + case_bool_decide; cbn; repeat split; assumption.
  - unfold delete_gallery. destruct (validatePassword body); [repeat split|].
    destruct (_ || _); [repeat split|].
    destruct (findIndex _ _); [|repeat split].
    cbn. unfold try_unlink, unlink. destruct (decide _); repeat split.
  - unfold post_hero_background_upload.
    destruct (validatePassword body); [repeat split|].
    pose proof (multer_run_frame uploadHero env (js "heroImage") 1 parts d) as F.
    destruct (multer_run _ _ _ _ _ _) as [d1 [e|fs]]; cbn [fst] in F;
      destruct F as [F1 [F2 [F3 [_ F5]]]]; specialize (F5 eq_refl).
    + cbn. repeat split; assumption.
    + destruct (head fs); cbn; repeat split; assumption.
  - unfold delete_hero_background. destruct (validatePassword body); [repeat split|].
    cbn. destruct (Hero.filename _) as [[|c n]|]; try (repeat split; fail).
    unfold try_unlink, unlink. destruct (decide _); repeat split.
Qed.

(** ** Further properties of names and of the file filter *)

Lemma imageFileFilter_None_inv (p : Part.t) :
  imageFileFilter p = None -> valid_image p.
Proof.
  unfold imageFileFilter, valid_image.
  case_bool_decide as Hm; cbn [negb]; [|discriminate].
  case_bool_decide as He; cbn [negb]; [|discriminate].
  intros _. split; assumption.
Qed.

Lemma safe_unit_sanitized (c : N) :
  safe_unit (if keep_unit c then c else 95) = true.
Proof.
  destruct (keep_unit c) eqn:E; [|reflexivity].
  unfold safe_unit. rewrite E. reflexivity.
Qed.

Lemma sanitize_safe (name : jstr) :
  Forall (fun c => safe_unit c = true) (sanitize name).
Proof.
  unfold sanitize. induction name as [|c name IH]; cbn [map]; constructor;
    [apply safe_unit_sanitized | exact IH].
Qed.

Lemma safe_unit_not_slash (c : N) : safe_unit c = true -> c <> CHAR_FORWARD_SLASH.
Proof. intros H ->. discriminate H. Qed.

Lemma is_digit_safe (c : N) : is_digit c = true -> safe_unit c = true.
Proof.
  unfold safe_unit, keep_unit. intros ->. rewrite !orb_true_r. reflexivity.
Qed.

Lemma is_digit_not_dot (c : N) : is_digit c = true -> c <> CHAR_DOT.
Proof. intros H ->. discriminate H. Qed.

Lemma extname_scan_dots (path : jstr) (n : nat) (st : ExtScan) :
  scan_dots path n st ->
  forall sd e,
    startDot (extname_scan path n st) = Some sd ->
    endPos (extname_scan path n st) = Some e ->
    forall j, (sd < j < e)%nat -> nth j path 0 <> CHAR_DOT.
Proof.
  revert st. induction n as [|i IH]; intros st [Ha [Hd [Hb Hc]]]; cbn [extname_scan].
  - exact Hb.
  - destruct (decide (nth i path 0 = CHAR_FORWARD_SLASH)) as [Hs|Hs].
    + destruct (matchedSlash st); [|exact Hb].
      apply IH. split; [|split; [exact Hd|split; [exact Hb|]]].
      * intros e He. specialize (Ha e He). lia.
      * intros Hn e He j Hj. destruct (decide (j = i)) as [->|Hji].
        -- rewrite Hs. discriminate.
        -- apply (Hc Hn e He). lia.
    + destruct st as [sD sP eP mS pD]. cbn in Ha, Hd, Hb, Hc.
      apply IH. unfold scan_dots, mark_dot, mark_end.
      destruct (decide (nth i path 0 = CHAR_DOT)) as [Hdot|Hdot];
        destruct eP as [e|]; destruct sD as [sd|]; cbn;
        try (specialize (Hd eq_refl); discriminate Hd);
        (split; [intros e' He'; injection He' as <-;
                 first [lia | specialize (Ha _ eq_refl); lia]|]);
        (split; [intros Hn; first [discriminate Hn | reflexivity]|]);
        (split; [intros sd' e' Hsd' He' j Hj;
                 try discriminate Hsd';
                 injection Hsd' as <-; injection He' as <-;
                 first [ lia
                       | apply (Hb _ _ eq_refl eq_refl); lia
                       | apply (Hc eq_refl _ eq_refl); lia ]|]);
        intros Hn e' He' j Hj; try discriminate Hn; injection He' as <-;
        (destruct (decide (j = i)) as [->|Hji];
         [exact Hdot | first [lia | apply (Hc eq_refl _ eq_refl); lia]]).
Qed.

Lemma take_no_dot (k : nat) (p : jstr) :
  (forall j, (j < k)%nat -> nth j p 0 <> CHAR_DOT) ->
  Forall (fun c => c <> CHAR_DOT) (take k p).
Proof.
  revert k. induction p as [|c p IH]; intros [|k] H; cbn [take]; try constructor.
  - apply (H 0%nat). lia.
  - apply IH. intros j Hj. apply (H (S j)). lia.
Qed.

Lemma slice_dot (path : jstr) (sd e : nat) :
  nth sd path 0 = CHAR_DOT -> (sd < e)%nat ->
  (forall j, (sd < j < e)%nat -> nth j path 0 <> CHAR_DOT) ->
  exists r, slice path sd e = CHAR_DOT :: r /\ Forall (fun c => c <> CHAR_DOT) r.
Proof.
  revert sd e. induction path as [|c path IH]; intros [|sd] e Hdot Hlt Hno;
    cbn in Hdot; try discriminate.
  - destruct e as [|k]; [lia|]. unfold slice. cbn.
    exists (take k path). split; [congruence|].
    apply take_no_dot. intros j Hj. apply (Hno (S j)). lia.
  - destruct e as [|e]; [lia|].
    destruct (IH sd e Hdot ltac:(lia)) as [r [Hr Hf]].
    { intros j Hj. apply (Hno (S j)). lia. }
    exists r. split; [|exact Hf]. unfold slice in *. cbn. exact Hr.
Qed.

Lemma extname_one_dot (path : jstr) :
  extname path = []
  \/ exists r, extname path = CHAR_DOT :: r /\ Forall (fun c => c <> CHAR_DOT) r.
Proof.
  unfold extname.
  pose proof (extname_scan_inv path (length path) scan_start) as H.
  pose proof (extname_scan_dots path (length path) scan_start) as D.
  destruct (startDot (extname_scan path (length path) scan_start)) as [sd|] eqn:Es;
    [|left; reflexivity].
  destruct (endPos (extname_scan path (length path) scan_start)) as [e|] eqn:Ee;
    [|left; reflexivity].
  destruct (_ || _); [left; reflexivity|]. right.
  destruct (H ltac:(intros ? ?; discriminate) ltac:(intros ? ?; discriminate) sd Es)
    as [Hdot [e' [He' Hlt]]].
  rewrite Ee in He'. injection He' as <-.
  apply slice_dot; [exact Hdot | exact Hlt|].
  apply D; [|reflexivity|reflexivity].
  repeat split; cbn; intros; discriminate.
Qed.

Lemma extname_units (P : N -> Prop) (path : jstr) :
  Forall P path -> Forall P (extname path).
Proof.
  intros H. unfold extname.
  destruct (startDot _); [|constructor]. destruct (endPos _); [|constructor].
  destruct (_ || _); [constructor|].
  unfold slice. apply Forall_take, Forall_drop, H.
Qed.

Lemma count_dots_app (s t : jstr) : count_dots (s ++ t) = (count_dots s + count_dots t)%nat.
Proof. apply count_occ_app. Qed.

Lemma count_dots_none (s : jstr) :
  Forall (fun c => c <> CHAR_DOT) s -> count_dots s = 0%nat.
Proof.
  induction 1 as [|c s Hc _ IH]; [reflexivity|].
  unfold count_dots in *. cbn. destruct (N.eq_dec c CHAR_DOT); [contradiction | exact IH].
Qed.

Lemma count_dots_extname (path : jstr) : (count_dots (extname path) <= 1)%nat.
Proof.
  destruct (extname_one_dot path) as [->|[r [-> Hr]]]; [cbn; lia|].
  change (CHAR_DOT :: r) with ([CHAR_DOT] ++ r).
  rewrite count_dots_app, (count_dots_none r Hr). cbn. lia.
Qed.

Lemma well_formed_from_counts (s : jstr) :
  s <> [] -> (count_dots s <= 1)%nat ->
  Forall (fun c => c <> CHAR_FORWARD_SLASH) s ->
  well_formed_filename s.
Proof.
  intros Hne Hdots Hslash. split; [exact Hne|]. split.
  - intros [pre [post ->]]. rewrite !count_dots_app in Hdots.
    change (count_dots (js "..")) with 2%nat in Hdots. lia.
  - intros [pre [post ->]]. rewrite Forall_app in Hslash.
    destruct Hslash as [_ Hslash]. change (js "/") with [CHAR_FORWARD_SLASH] in Hslash.
    inversion Hslash as [|c l Hc _]. apply Hc. reflexivity.
Qed.

Lemma uint_units_no_dot (u : uint) : Forall (fun c => c <> CHAR_DOT) (uint_units u).
Proof.
  eapply Forall_impl; [apply uint_units_digits|]. apply is_digit_not_dot.
Qed.

Lemma uint_units_safe (u : uint) : Forall (fun c => safe_unit c = true) (uint_units u).
Proof.
  eapply Forall_impl; [apply uint_units_digits|]. apply is_digit_safe.
Qed.

Lemma galleryStorage_filename_safe (env : Env) (k : nat) (p : Part.t) :
  Forall (fun c => safe_unit c = true) (galleryStorage_filename env k p).
Proof.
  unfold galleryStorage_filename, num_to_string.
  repeat (apply Forall_app; split);
    try apply uint_units_safe; try apply extname_units, sanitize_safe.
  - apply (bool_decide_unpack _). vm_compute. exact I.
  - apply (bool_decide_unpack _). vm_compute. exact I.
Qed.

Lemma heroStorage_filename_safe (env : Env) (k : nat) (p : Part.t) :
  Forall (fun c => safe_unit c = true) (heroStorage_filename env k p).
Proof.
  unfold heroStorage_filename.
  apply Forall_app; split; [|apply extname_units, sanitize_safe].
  apply (bool_decide_unpack _). vm_compute. exact I.
Qed.

Lemma galleryStorage_filename_well_formed (env : Env) (k : nat) (p : Part.t) :
  well_formed_filename (galleryStorage_filename env k p).
Proof.
  apply well_formed_from_counts.
  - discriminate.
  - unfold galleryStorage_filename, num_to_string.
    rewrite !count_dots_app, !(count_dots_none _ (uint_units_no_dot _)).
    pose proof (count_dots_extname (sanitize (Part.originalname p))).
    change (count_dots (js "gallery-")) with 0%nat.
    change (count_dots (js "-")) with 0%nat. lia.
  - eapply Forall_impl; [apply galleryStorage_filename_safe|].
    apply safe_unit_not_slash.
Qed.

Lemma heroStorage_filename_well_formed (env : Env) (k : nat) (p : Part.t) :
  well_formed_filename (heroStorage_filename env k p).
Proof.
  apply well_formed_from_counts.
  - discriminate.
  - unfold heroStorage_filename. rewrite count_dots_app.
    pose proof (count_dots_extname (sanitize (Part.originalname p))).
    change (count_dots (js "hero-background")) with 0%nat. lia.
  - eapply Forall_impl; [apply heroStorage_filename_safe|].
    apply safe_unit_not_slash.
Qed.

(** X6: the file filter lets a part through exactly when its declared
    MIME type is an allowed one and the extension of its original name,
    in lower case, is an allowed one; a part of another MIME type gets the
    file-type message, a part of an allowed type with another extension
    the extension message. *)
Theorem file_filter_verdicts (p : Part.t) :
  (imageFileFilter p = None <-> valid_image p)
  /\ (Part.mimetype p ∉ allowedMimes ->
      imageFileFilter p = Some (js "Invalid file type. Only images are allowed."))
  /\ (Part.mimetype p ∈ allowedMimes ->
      toLowerCase (extname (Part.originalname p)) ∉ allowedExtensions ->
      imageFileFilter p =
        Some (js "Invalid file extension. Only .jpg, .jpeg, .png, .gif, .webp are allowed.")).
Proof.
  split; [split; [apply imageFileFilter_None_inv | apply imageFileFilter_accepts]|].
  unfold imageFileFilter. split.
  - intros Hm. rewrite bool_decide_eq_false_2 by exact Hm. reflexivity.
  - intros Hm He. rewrite bool_decide_eq_true_2 by exact Hm.
    rewrite bool_decide_eq_false_2 by exact He. reflexivity.
Qed.

(** X7: sanitizing a name keeps its length, leaves only letters, digits,
    dots, dashes and underscores, keeps the dots where they were, changes
    nothing in a name made of letters, digits, dots and dashes, and
    changes nothing when done twice. *)
Theorem sanitize_properties (name : jstr) :
  length (sanitize name) = length name
  /\ Forall (fun c => safe_unit c = true) (sanitize name)
  /\ (forall i, nth i (sanitize name) 0 = CHAR_DOT <-> nth i name 0 = CHAR_DOT)
  /\ (Forall (fun c => keep_unit c = true) name -> sanitize name = name)
  /\ sanitize (sanitize name) = sanitize name.
Proof.
  split; [apply length_map|]. split; [apply sanitize_safe|]. split; [|split].
  - unfold sanitize. induction name as [|c name IH]; intros [|i]; cbn [map nth];
      try reflexivity; [|apply IH].
    destruct (keep_unit c) eqn:E; [reflexivity|].
    split; [discriminate|]. intros ->. discriminate E.
  - unfold sanitize. induction 1 as [|c l Hc _ IH]; [reflexivity|].
    cbn [map]. rewrite Hc, IH. reflexivity.
  - unfold sanitize. induction name as [|c name IH]; [reflexivity|].
    cbn [map]. rewrite IH. f_equal.
    destruct (keep_unit c) eqn:E; [rewrite E; reflexivity | reflexivity].
Qed.

(** X8: whatever the original name of a part, the name it is stored
    under, in the gallery and as hero background, is made of letters,
    digits, dots, dashes and underscores only and is a name that the
    delete route accepts: not empty, without ".." and without "/". *)
Theorem stored_names_are_safe (env : Env) (k : nat) (p : Part.t) :
  (well_formed_filename (galleryStorage_filename env k p)
   /\ Forall (fun c => safe_unit c = true) (galleryStorage_filename env k p))
  /\ (well_formed_filename (heroStorage_filename env k p)
      /\ Forall (fun c => safe_unit c = true) (heroStorage_filename env k p)).
Proof.
  split; split.
  - apply galleryStorage_filename_well_formed.
  - apply galleryStorage_filename_safe.
  - apply heroStorage_filename_well_formed.
  - apply heroStorage_filename_safe.
Qed.

(** ** Further properties of the upload and delete routes *)

Lemma multer_parts_success_inv (m : Multer) (env : Env) (field : jstr)
    (maxCount : nat) (parts : list Part.t) (uploaded : list File.t)
    (dir dir' : gset jstr) (fs : list File.t) :
  multer_parts m env field maxCount uploaded parts dir = (dir', inr fs) ->
  Forall (fun p => fileFilter m p = None /\ Part.size p <= fileSize m) parts
  /\ fs = uploaded ++ stored_from m env (length uploaded) parts.
Proof.
  revert uploaded dir. induction parts as [|p rest IH]; intros uploaded dir;
    cbn [multer_parts stored_from].
  - intros H. injection H as _ <-. rewrite app_nil_r. split; [constructor | reflexivity].
  - destruct (bool_decide (files m <= length uploaded)%nat); [discriminate|].
    destruct (_ || _); [discriminate|].
    destruct (fileFilter m p) eqn:Ef; [discriminate|].
    destruct (N.ltb_spec (fileSize m) (Part.size p)) as [_|Hle]; [discriminate|].
    intros H. apply IH in H. destruct H as [Hall ->].
    rewrite length_app, Nat.add_1_r, <- app_assoc.
    split; [constructor; [split; assumption | exact Hall] | reflexivity].
Qed.




(** X11: a request that is not answered with success leaves the three
    documents as they were, whichever route it takes. *)
Theorem failure_records_nothing (env : Env) (req : Request) (d : Disk) :
  succeeded (fst (handle env req d)) = false ->
  DATA_FILE (snd (handle env req d)) = DATA_FILE d
  /\ GALLERY_FILE (snd (handle env req d)) = GALLERY_FILE d
  /\ HERO_BG_FILE (snd (handle env req d)) = HERO_BG_FILE d.
Proof.
  destruct req as [|body| |body parts|f body| |body parts|body];
    cbn [handle get_status get_gallery get_hero_background snd fst];
    try (intros _; repeat split; fail).
  - unfold post_status. destruct (validatePassword body); [repeat split|].
    destruct (validateStatusData body); [repeat split | discriminate].
  - unfold post_gallery_upload. destruct (validatePassword body); [repeat split|].
    pose proof (multer_run_frame uploadGallery env (js "images") 10 parts d) as F.
    destruct (multer_run _ _ _ _ _ _) as [d1 [e|fs]]; cbn [fst] in F;
      destruct F as [F1 [F2 [F3 _]]].
    + intros _. cbn. repeat split; assumption.
    + case_bool_decide; [|discriminate]. intros _. cbn. repeat split; assumption.
  - unfold delete_gallery. destruct (validatePassword body); [repeat split|].
    destruct (_ || _); [repeat split|].
    destruct (findIndex _ _); [discriminate | repeat split].
  - unfold post_hero_background_upload.
    destruct (validatePassword body); [repeat split|].
    pose proof (multer_run_frame uploadHero env (js "heroImage") 1 parts d) as F.
    destruct (multer_run _ _ _ _ _ _) as [d1 [e|fs]]; cbn [fst] in F;
      destruct F as [F1 [F2 [F3 _]]].
    + intros _. cbn. repeat split; assumption.
    + destruct (head fs); [discriminate|]. intros _. cbn. repeat split; assumption.
  - unfold delete_hero_background. destruct (validatePassword body); [repeat split|].
    discriminate.
Qed.

Lemma findIndex_Some_inv (filename : jstr) (images : list Image.t) (i : nat) :
  findIndex filename images = Some i ->
  exists img, images !! i = Some img /\ Image.filename img = filename
    /\ forall j img', (j < i)%nat -> images !! j = Some img' ->
         Image.filename img' <> filename.
Proof.
  revert i. induction images as [|img rest IH]; intros i; cbn [findIndex];
    [discriminate|].
  destruct (decide (Image.filename img = filename)) as [E|Hne].
  - intros H. injection H as <-. exists img. split; [reflexivity|].
    split; [exact E|]. intros j img' Hj. lia.
  - destruct (findIndex filename rest) as [k|] eqn:Ek; [|discriminate].
    intros H. injection H as <-.
    destruct (IH k eq_refl) as [img0 [Hl [Hf Hfirst]]].
    exists img0. split; [exact Hl|]. split; [exact Hf|].
    intros [|j] img' Hj Hl'; cbn in Hl'.
    + injection Hl' as <-. exact Hne.
    + apply (Hfirst j img'); [lia | exact Hl'].
Qed.

Lemma findIndex_found (filename : jstr) (images : list Image.t) (img : Image.t) :
  img ∈ images -> Image.filename img = filename ->
  exists i, findIndex filename images = Some i.
Proof.
  intros Hin Hf. destruct (findIndex filename images) as [i|] eqn:E; [exists i; reflexivity|].
  exfalso. induction images as [|x rest IH]; [inversion Hin|].
  cbn [findIndex] in E.
  destruct (decide (Image.filename x = filename)) as [_|Hne]; [discriminate|].
  destruct (findIndex filename rest) eqn:Er; [discriminate|].
  apply elem_of_cons in Hin. destruct Hin as [->|Hin]; [contradiction|].
  apply IH; [exact Hin | reflexivity].
Qed.

Lemma try_unlink_gallery_dir (name : jstr) (d : Disk) :
  gallery_dir (try_unlink GALLERY_UPLOADS_DIR name d) = gallery_dir d ∖ {[name]}.
Proof.
  unfold try_unlink, unlink. cbn [read_dir].
  destruct (decide (name ∈ gallery_dir d)) as [Hin|Hout]; cbn; [reflexivity|].
  symmetry. apply difference_disjoint_L, disjoint_singleton_r, Hout.
Qed.

Lemma delete_gallery_found (filename : jstr) (body : Body) (d : Disk) (i : nat) :
  authorized body -> well_formed_filename filename ->
  findIndex filename (Gallery.images (GALLERY_FILE d)) = Some i ->
  delete_gallery filename body d =
    (Json 200 (Success (js "Image deleted successfully")),
     write_gallery {| Gallery.images := delete i (Gallery.images (GALLERY_FILE d)) |}
       (try_unlink GALLERY_UPLOADS_DIR filename d)).
Proof.
  intros Ha [Hne [Hdots Hslash]] Hi. unfold delete_gallery. pass_gate Ha.
  rewrite bool_decide_eq_false_2 by exact Hne.
  destruct (includes filename (js "..")) eqn:E1.
  { exfalso. apply Hdots, includes_spec, E1. }
  destruct (includes filename (js "/")) eqn:E2.
  { exfalso. apply Hslash, includes_spec, E2. }
  cbn [orb]. rewrite Hi. reflexivity.
Qed.

(** X12: deleting, with the admin password, a well-formed file name
    that an entry of the gallery record carries is answered with success;
    the first entry with that name leaves the record, the others stay in
    their order, and the file of that name is gone from the gallery
    directory, whether it was there or not. *)
Theorem delete_gallery_removes_first (env : Env) (filename : jstr) (body : Body)
    (d : Disk) (img0 : Image.t) :
  authorized body ->
  well_formed_filename filename ->
  img0 ∈ Gallery.images (GALLERY_FILE d) ->
  Image.filename img0 = filename ->
  exists i img d',
    handle env (DELETE_gallery filename body) d =
      (Json 200 (Success (js "Image deleted successfully")), d')
    /\ Gallery.images (GALLERY_FILE d) !! i = Some img
    /\ Image.filename img = filename
    /\ (forall j img', (j < i)%nat ->
          Gallery.images (GALLERY_FILE d) !! j = Some img' ->
          Image.filename img' <> filename)
    /\ Gallery.images (GALLERY_FILE d') = delete i (Gallery.images (GALLERY_FILE d))
    /\ gallery_dir d' = gallery_dir d ∖ {[filename]}.
Proof.
  intros Ha Hw Hin Hf.
  destruct (findIndex_found filename _ img0 Hin Hf) as [i Hi].
  destruct (findIndex_Some_inv filename _ i Hi) as [img [Hl [Hn Hfirst]]].
  exists i, img. eexists. cbn [handle].
  rewrite (delete_gallery_found filename body d i Ha Hw Hi).
  split; [reflexivity|]. split; [exact Hl|]. split; [exact Hn|].
  split; [exact Hfirst|]. split; [reflexivity|].
  cbn [gallery_dir write_gallery]. apply try_unlink_gallery_dir.
Qed.


Lemma gallery_record_frame (env : Env) (req : Request) (d : Disk) :
  match req with
  | POST_gallery_upload _ _ | DELETE_gallery _ _ => False
  | _ => True
  end ->
  GALLERY_FILE (snd (handle env req d)) = GALLERY_FILE d.
Proof.
  destruct req as [|body| |body parts|f body| |body parts|body]; intros H;
    try contradiction; cbn [handle get_status get_gallery get_hero_background snd];
    try reflexivity.
  - unfold post_status. destruct (validatePassword body); [reflexivity|].
    destruct (validateStatusData body); reflexivity.
  - unfold post_hero_background_upload.
    destruct (validatePassword body); [reflexivity|].
    pose proof (multer_run_frame uploadHero env (js "heroImage") 1 parts d) as F.
    destruct (multer_run _ _ _ _ _ _) as [d1 [e|fs]]; cbn [fst] in F;
      destruct F as [_ [F2 _]]; [exact F2|].
    destruct (head fs); exact F2.
  - unfold delete_hero_background. destruct (validatePassword body); [reflexivity|].
    cbn. destruct (Hero.filename _) as [[|c n]|]; try reflexivity.
    unfold try_unlink, unlink. destruct (decide _); reflexivity.
Qed.




(** ** Further properties of the hero routes *)

Lemma try_unlink_spec (target : UploadDir) (name : jstr) (d : Disk) :
  try_unlink target name d = write_dir target (read_dir target d ∖ {[name]}) d.
Proof.
  unfold try_unlink, unlink.
  destruct (decide (name ∈ read_dir target d)) as [Hin|Hout]; cbn [default];
    [reflexivity|].
  rewrite (difference_disjoint_L (read_dir target d) {[name]})
    by (apply disjoint_singleton_r, Hout).
  symmetry. apply write_dir_read_dir.
Qed.

(** X16: on a disk whose hero record names no file or a file of the hero
    directory, DeleteHero with the admin password takes out of the hero
    directory the file that the hero record names, if the record names
    one, and no other file; the status, the gallery record and the gallery
    directory stay as they were. *)
Theorem delete_hero_removes_named_file (env : Env) (body : Body) (d : Disk) :
  authorized body ->
  hero_name_stays d ->
  let d' := snd (handle env (DELETE_hero_background body) d) in
  hero_dir d' =
    match Hero.filename (HERO_BG_FILE d) with
    | Some (c :: name) => hero_dir d ∖ {[c :: name]}
    | _ => hero_dir d
    end
  /\ (forall x, x ∈ hero_dir d -> Hero.filename (HERO_BG_FILE d) <> Some x ->
        x ∈ hero_dir d')
  /\ DATA_FILE d' = DATA_FILE d /\ GALLERY_FILE d' = GALLERY_FILE d
  /\ gallery_dir d' = gallery_dir d.
Proof.
  intros Ha _ d'. subst d'. cbn [handle]. unfold delete_hero_background. pass_gate Ha.
  cbn [snd]. destruct (Hero.filename (HERO_BG_FILE d)) as [[|c name]|];
    try (cbn; repeat split; intros; assumption).
  rewrite try_unlink_spec. cbn.
  split; [reflexivity|]. split; [|repeat split].
  intros x Hx Hne. apply elem_of_difference. split; [exact Hx|].
  intros E. apply elem_of_singleton in E. congruence.
Qed.

Lemma handle_hero_shape (env : Env) (req : Request) (d : Disk) :
  hero_shape (HERO_BG_FILE d) ->
  hero_shape (HERO_BG_FILE (snd (handle env req d))).
Proof.
  intros Hd.
  destruct req as [|body| |body parts|f body| |body parts|body];
    cbn [handle get_status get_gallery get_hero_background snd]; try exact Hd.
  - unfold post_status. destruct (validatePassword body); [exact Hd|].
    destruct (validateStatusData body); exact Hd.
  - unfold post_gallery_upload. destruct (validatePassword body); [exact Hd|].
    pose proof (multer_run_frame uploadGallery env (js "images") 10 parts d) as F.
    destruct (multer_run _ _ _ _ _ _) as [d1 [e|fs]]; cbn [fst] in F;
      destruct F as [_ [_ [F3 _]]].
    + cbn. rewrite F3. exact Hd.
    + case_bool_decide; cbn; rewrite F3; exact Hd.
  - unfold delete_gallery. destruct (validatePassword body); [exact Hd|].
    destruct (_ || _); [exact Hd|].
    destruct (findIndex _ _); [|exact Hd].
    rewrite try_unlink_spec. exact Hd.
  - unfold post_hero_background_upload.
    destruct (validatePassword body); [exact Hd|]. unfold multer_run.
    destruct (multer_parts _ _ _ _ _ _ _) as [dir [e|fs]] eqn:E; cbn; [exact Hd|].
    apply multer_parts_success_inv in E. destruct E as [Hall ->].
    destruct parts as [|p rest]; cbn; [exact Hd|].
    inversion Hall as [|? ? [Hf Hs] _]; subst.
    right. do 5 eexists. split; [reflexivity|].
    split; [apply heroStorage_filename_well_formed|].
    split; [apply starts_with_spec; eexists; reflexivity|].
    split; [apply (imageFileFilter_None_inv p Hf) | exact Hs].
  - unfold delete_hero_background. destruct (validatePassword body); [exact Hd|].
    left. reflexivity.
Qed.

(** X19: on a disk whose hero record names no file or a file of the hero
    directory, the gallery record only grows at its end, except by
    deletion: every request other than a delete of a gallery image keeps
    the entries that were there, in their order, as the beginning of the
    record, and such a delete takes at most one entry out. *)
Theorem gallery_append_only (env : Env) (req : Request) (d : Disk) :
  hero_name_stays d ->
  let images := Gallery.images (GALLERY_FILE d) in
  let images' := Gallery.images (GALLERY_FILE (snd (handle env req d))) in
  match req with
  | DELETE_gallery _ _ =>
      images' = images \/ exists i, (i < length images)%nat /\ images' = delete i images
  | _ => exists added, images' = images ++ added
  end.
Proof.
  intros _.
  destruct req as [|body| |body parts|f body| |body parts|body]; cbn zeta;
    try (rewrite gallery_record_frame by exact I; exists []; rewrite app_nil_r;
         reflexivity).
  - cbn [handle]. unfold post_gallery_upload.
    destruct (validatePassword body); [exists []; rewrite app_nil_r; reflexivity|].
    pose proof (multer_run_frame uploadGallery env (js "images") 10 parts d) as F.
    destruct (multer_run _ _ _ _ _ _) as [d1 [e|fs]]; cbn [fst] in F;
      destruct F as [_ [F2 _]].
    + cbn. rewrite F2. exists []. rewrite app_nil_r. reflexivity.
    + case_bool_decide; cbn; rewrite F2;
        [exists []; rewrite app_nil_r; reflexivity | eexists; reflexivity].
  - cbn [handle]. unfold delete_gallery.
    destruct (validatePassword body); [left; reflexivity|].
    destruct (_ || _); [left; reflexivity|].
    destruct (findIndex f (Gallery.images (GALLERY_FILE d))) as [i|] eqn:Ei;
      [|left; reflexivity].
    right. exists i. destruct (findIndex_Some_inv _ _ _ Ei) as [img [Hl _]].
    split; [apply lookup_lt_Some in Hl; exact Hl | reflexivity].
Qed.

(** X20: in every state the server reaches from its first start, the
    hero record is the empty default or a complete entry whose file name
    starts with hero-background and has neither ".." nor "/", whose MIME
    type is an allowed one and whose size is at most 10 MiB. *)
Theorem hero_record_shape (now : Instant) (reqs : list (Env * Request)) :
  hero_shape (HERO_BG_FILE (run reqs (first_start now))).
Proof.
  assert (H : forall d, hero_shape (HERO_BG_FILE d) ->
                        hero_shape (HERO_BG_FILE (run reqs d))).
  { induction reqs as [|[env req] rest IH]; intros d Hd; [exact Hd|].
    cbn [run]. apply IH, handle_hero_shape, Hd. }
  apply H. left. reflexivity.
Qed.

(** ** The error-handling middleware and the start *)

(** X17: the error-handling middleware answers every multer error with
    status 400, answers an error of the file filter with status 400 and
    the message of the filter, and answers any other error whose message
    has neither of the two phrases of the filter with status 500 and a
    fixed body that does not carry the message. *)
Theorem error_middleware_verdicts (error : ThrownError) :
  (is_multer error = true ->
   exists message, error_middleware error = Json 400 (ErrorBody message))
  /\ (is_multer error = false ->
      (exists p, imageFileFilter p = Some (error_message error)) ->
      error_middleware error = Json 400 (ErrorBody (error_message error)))
  /\ (is_multer error = false ->
      ~ contains (error_message error) (js "Invalid file type") ->
      ~ contains (error_message error) (js "Invalid file extension") ->
      error_middleware error = Json 500 (ErrorBody (js "Internal server error"))).
Proof.
  destruct error as [im code message]. unfold error_middleware.
  cbn [is_multer error_code error_message].
  split; [|split].
  - intros ->. destruct (decide _); [eexists; reflexivity|].
    destruct (decide _); eexists; reflexivity.
  - intros -> [p Hp]. unfold imageFileFilter in Hp.
    destruct (negb _); [injection Hp as <-; reflexivity|].
    destruct (negb _); [injection Hp as <-; reflexivity | discriminate].
  - intros -> H1 H2.
    destruct (includes message (js "Invalid file type")) eqn:E1.
    { exfalso. apply H1, includes_spec, E1. }
    destruct (includes message (js "Invalid file extension")) eqn:E2.
    { exfalso. apply H2, includes_spec, E2. }
    reflexivity.
Qed.

(** X18: the start of the server creates what is missing and keeps what
    is there: from an empty disk it gives the defaults with the clock
    reading of the start, on the files of a running server it changes
    nothing, a second start changes nothing whatever its clock reading,
    and a document that exists is kept as it is. *)
Theorem start_keeps_what_is_there (now now' : Instant) (f : Files) (d : Disk) :
  startServer now no_files = files_of (first_start now)
  /\ startServer now (files_of d) = files_of d
  /\ startServer now' (startServer now f) = startServer now f
  /\ (forall r, status_json f = Some r -> status_json (startServer now f) = Some r)
  /\ (forall g, gallery_json f = Some g -> gallery_json (startServer now f) = Some g)
  /\ (forall h, hero_json f = Some h -> hero_json (startServer now f) = Some h).
Proof.
  unfold startServer, initializeDataFiles, createUploadDirectories.
  split; [reflexivity|]. split; [reflexivity|]. split; [reflexivity|].
  cbn [status_json gallery_json hero_json].
  split; [|split]; intros x H; rewrite H; reflexivity.
Qed.

(** Every hero record that the server writes names no file or a file of
    the hero directory. *)
Lemma hero_shape_stays (d : Disk) :
  hero_shape (HERO_BG_FILE d) -> hero_name_stays d.
Proof.
  intros [E|[name [original [at_ [size [mime [E [Hw [Hs _]]]]]]]]] n Hn Hne;
    rewrite E in Hn; [discriminate Hn|].
  injection Hn as <-. split; [exact Hw|].
  intros ->. discriminate Hs.
Qed.

(** ** Uploads as they arrive *)

Lemma validatePassword_empty :
  validatePassword [] = Some (Json 401 (ErrorBody (js "Invalid password"))).
Proof. reflexivity. Qed.

Lemma gallery_upload_cases (env : Env) (content : Content) (d : Disk) :
  serve env Post_gallery_upload content d =
    (Json 401 (ErrorBody (js "Invalid password")), d)
  \/ (file_parts content = []
      /\ serve env Post_gallery_upload content d =
           (Json 400 (ErrorBody (js "No files uploaded")), d)).
Proof.
  unfold serve. cbn [receive handle]. unfold post_gallery_upload.
  destruct content as [|fields|fields|fields parts]; cbn [parsed_body file_parts];
    try (left; rewrite validatePassword_empty; reflexivity);
    (destruct (gate_cases fields) as [[_ E]|[_ E]]; rewrite E; [|left; reflexivity]);
    right; unfold multer_run; cbn [multer_parts]; rewrite write_dir_read_dir;
    (split; reflexivity).
Qed.

Lemma hero_upload_cases (env : Env) (content : Content) (d : Disk) :
  serve env Post_hero_background_upload content d =
    (Json 401 (ErrorBody (js "Invalid password")), d)
  \/ (file_parts content = []
      /\ serve env Post_hero_background_upload content d =
           (Json 400 (ErrorBody (js "No file uploaded")), d)).
Proof.
  unfold serve. cbn [receive handle]. unfold post_hero_background_upload.
  destruct content as [|fields|fields|fields parts]; cbn [parsed_body file_parts];
    try (left; rewrite validatePassword_empty; reflexivity);
    (destruct (gate_cases fields) as [[_ E]|[_ E]]; rewrite E; [|left; reflexivity]);
    right; unfold multer_run; cbn [multer_parts]; rewrite write_dir_read_dir;
    (split; reflexivity).
Qed.

(** C2: a hero upload never reaches its handler with a file.  A request
    that carries file parts is multipart, so [validatePassword], which
    runs before the upload middleware, finds no password and answers 401;
    any other request carries no file and is answered 401 or 400.  No
    request to the route is answered with success, and none changes the
    disk: the hero record stays what it was and no file is stored. *)
Theorem hero_upload_stops_at_the_gate (env : Env) (content : Content) (d : Disk) :
  snd (serve env Post_hero_background_upload content d) = d
  /\ succeeded (fst (serve env Post_hero_background_upload content d)) = false
  /\ (forall fields parts, content = MultipartContent fields parts ->
        serve env Post_hero_background_upload content d =
          (Json 401 (ErrorBody (js "Invalid password")), d)).
Proof.
  split; [|split].
  - destruct (hero_upload_cases env content d) as [E|[_ E]]; rewrite E; reflexivity.
  - destruct (hero_upload_cases env content d) as [E|[_ E]]; rewrite E; reflexivity.
  - intros fields parts ->. unfold serve. cbn [receive handle parsed_body].
    unfold post_hero_background_upload. rewrite validatePassword_empty. reflexivity.
Qed.

(** C3: a gallery upload never reaches its handler with a file, for the
    same reason: a request that carries file parts is answered 401 by
    [validatePassword] before the upload middleware reads it, any other
    request carries no file and is answered 401 or 400.  No request to the
    route is answered with success, none adds an entry to the gallery
    record and none stores a file. *)
Theorem gallery_upload_stops_at_the_gate (env : Env) (content : Content) (d : Disk) :
  snd (serve env Post_gallery_upload content d) = d
  /\ succeeded (fst (serve env Post_gallery_upload content d)) = false
  /\ (forall fields parts, content = MultipartContent fields parts ->
        serve env Post_gallery_upload content d =
          (Json 401 (ErrorBody (js "Invalid password")), d)).
Proof.
  split; [|split].
  - destruct (gallery_upload_cases env content d) as [E|[_ E]]; rewrite E; reflexivity.
  - destruct (gallery_upload_cases env content d) as [E|[_ E]]; rewrite E; reflexivity.
  - intros fields parts ->. unfold serve. cbn [receive handle parsed_body].
    unfold post_gallery_upload. rewrite validatePassword_empty. reflexivity.
Qed.

Lemma serve_bare (env : Env) (route : Route) (content : Content) (d : Disk) :
  bare d -> bare (snd (serve env route content d)).
Proof.
  intros Hb. destruct route as [| | | |f| | |].
  1,3,6: exact Hb.
  - unfold serve. cbn [receive handle]. unfold post_status.
    destruct (validatePassword _); [exact Hb|].
    destruct (validateStatusData _); exact Hb.
  - destruct (gallery_upload_cases env content d) as [E|[_ E]]; rewrite E; exact Hb.
  - unfold serve. cbn [receive handle]. unfold delete_gallery.
    destruct (validatePassword _); [exact Hb|].
    destruct (_ || _); [exact Hb|].
    destruct Hb as [Hg Hb]. rewrite Hg. cbn [defaultGallery Gallery.images findIndex].
    split; assumption.
  - destruct (hero_upload_cases env content d) as [E|[_ E]]; rewrite E; exact Hb.
  - unfold serve. cbn [receive handle]. unfold delete_hero_background.
    destruct (validatePassword _); [exact Hb|].
    destruct Hb as [Hg [Hh [Hgd Hhd]]]. rewrite Hh.
    cbn [defaultHero Hero.filename snd]. repeat split; assumption.
Qed.

(** X21: whatever requests arrive after the first start, no image is ever
    stored or listed: the gallery record stays empty, the hero record
    stays the empty default and both upload directories stay empty. *)
Theorem uploads_never_arrive (now : Instant) (calls : list (Env * Route * Content)) :
  let d := run_http calls (first_start now) in
  GALLERY_FILE d = defaultGallery /\ HERO_BG_FILE d = defaultHero
  /\ gallery_dir d = ∅ /\ hero_dir d = ∅.
Proof.
  assert (H : forall d, bare d -> bare (run_http calls d)).
  { induction calls as [|[[env route] content] rest IH]; intros d Hd; [exact Hd|].
    cbn [run_http]. apply IH, serve_bare, Hd. }
  apply (H (first_start now)). repeat split.
Qed.

(** X22: the names that the storage engine of the gallery makes from two
    clock readings or two draws that differ are different names, whatever
    the original names of the files. *)
Theorem gallery_names_differ (env env' : Env) (k k' : nat) (p p' : Part.t) :
  dateNow env k <> dateNow env' k' \/ randomRounded env k <> randomRounded env' k' ->
  galleryStorage_filename env k p <> galleryStorage_filename env' k' p'.
Proof.
  intros Hdiff E. apply galleryStorage_filename_inj in E. destruct E as [E1 E2].
  destruct Hdiff as [H|H]; contradiction.
Qed.

End Server.

(** ** The properties at the sample requests

    The server runs with [ADMIN_PASSWORD] unset, that is, with the
    default password. *)

Lemma set_status_then_get_status_witness :
  (length (js "Open today") <= 500)%nat
  /\ handle None sample_env (POST_status open_body) (first_start 0) =
       (Json 200 (Success (js "Status updated successfully")),
        write_status (Status.mk (JsBool true) (JsString (js "Open today")) 1700000000000)
          (first_start 0))
  /\ handle None sample_env GET_status
       (write_status (Status.mk (JsBool true) (JsString (js "Open today")) 1700000000000)
          (first_start 0)) =
       (Json 200 (StatusDoc (Status.mk (JsBool true) (JsString (js "Open today")) 1700000000000)),
        write_status (Status.mk (JsBool true) (JsString (js "Open today")) 1700000000000)
          (first_start 0)).
Proof.
  assert (Hl : (length (js "Open today") <= 500)%nat) by (cbn; lia).
  split; [exact Hl|].
  exact (set_status_then_get_status None sample_env sample_env open_body
           (first_start 0) true (js "Open today") eq_refl eq_refl eq_refl Hl).
Defined.

Lemma wrong_password_rejected_witness :
  get_prop guess_body (js "password") <> JsString (ADMIN_PASSWORD None)
  /\ handle None sample_env (POST_status guess_body) (first_start 0) =
       (Json 401 (ErrorBody (js "Invalid password")), first_start 0).
Proof.
  assert (H : get_prop guess_body (js "password") <> JsString (ADMIN_PASSWORD None))
    by (vm_compute; discriminate).
  split; [exact H|].
  exact (proj2 (wrong_password_rejected None sample_env guess_body (first_start 0) H)).
Defined.

Lemma long_notice_rejected_witness :
  (500 < length (repeat 120 501))%nat
  /\ handle None sample_env (POST_status long_body) (first_start 0) =
       (Json 400 (ErrorBody (js "Notice must be less than 500 characters")),
        first_start 0).
Proof.
  assert (Hl : (500 < length (repeat 120 501))%nat) by (rewrite repeat_length; lia).
  split; [exact Hl|].
  exact (long_notice_rejected None sample_env long_body (first_start 0)
           (repeat 120 501) eq_refl eq_refl Hl).
Defined.

Lemma falsy_notice_stored_empty_witness :
  truthy (get_prop null_notice_body (js "notice")) = false
  /\ DATA_FILE (snd (handle None sample_env (POST_status null_notice_body)
                       (first_start 0))) =
       Status.mk (JsBool false) (JsString []) 1700000000000
  /\ handle None sample_env GET_status
       (snd (handle None sample_env (POST_status null_notice_body) (first_start 0))) =
       (Json 200 (StatusDoc (Status.mk (JsBool false) (JsString []) 1700000000000)),
        snd (handle None sample_env (POST_status null_notice_body) (first_start 0))).
Proof.
  split; [reflexivity|].
  destruct (proj1 (proj2 (falsy_notice_stored_empty None 0 [] sample_env sample_env
                            null_notice_body eq_refl eq_refl)) false eq_refl)
    as [_ [Hs [_ Hg]]].
  split; [exact Hs | exact Hg].
Defined.

Lemma disallowed_mime_rejected_witness :
(Part.mimetype leaflet_pdf ∉ allowedMimes)
  /\ handle None sample_env (POST_gallery_upload admin_body [leaflet_pdf]) (first_start 0) =
       (Raised (PlainError (js "Invalid file type. Only images are allowed.")),
        first_start 0).
Proof.
  assert (H : Part.mimetype leaflet_pdf ∉ allowedMimes).
  { apply (bool_decide_eq_false_1 (Part.mimetype leaflet_pdf ∈ allowedMimes)).
    vm_compute. reflexivity. }
  split; [exact H|].
  destruct (disallowed_mime_rejected None sample_env admin_body leaflet_pdf
              (first_start 0) H) as [[Hn _]|[_ [error [E He]]]].
  - exfalso. apply Hn. reflexivity.
  - rewrite E, (He eq_refl). reflexivity.
Defined.

Lemma delete_unknown_not_found_witness :
  well_formed_filename (js "gallery-1-2.png")
  /\ handle None sample_env (DELETE_gallery (js "gallery-1-2.png") admin_body)
       (run None same_upload_twice (first_start 0)) =
       (Json 404 (ErrorBody (js "Image not found")),
        run None same_upload_twice (first_start 0)).
Proof.
  assert (Hw : well_formed_filename (js "gallery-1-2.png")).
  { split; [discriminate|]. split; apply not_contains; reflexivity. }
  split; [exact Hw|].
  apply (delete_unknown_not_found None sample_env (js "gallery-1-2.png") admin_body
           (run None same_upload_twice (first_start 0)) eq_refl Hw).
  apply Forall_forall. apply (bool_decide_unpack _). vm_compute. exact I.
Defined.

Lemma traversal_rejected_witness :
  contains (js "../status.json") (js "..")
  /\ handle None sample_env (DELETE_gallery (js "../status.json") admin_body)
       (run None same_upload_twice (first_start 0)) =
       (Json 400 (ErrorBody (js "Invalid filename")),
        run None same_upload_twice (first_start 0)).
Proof.
  assert (Hc : contains (js "../status.json") (js ".."))
    by (exists [], (js "/status.json"); reflexivity).
  split; [exact Hc|].
  destruct (traversal_rejected None sample_env (js "../status.json") admin_body
              (run None same_upload_twice (first_start 0)) (or_introl Hc))
    as [[_ E]|[Hn _]].
  - exact E.
  - exfalso. apply Hn. reflexivity.
Defined.

Lemma delete_hero_idempotent_witness :
  exists d',
    handle None sample_env (DELETE_hero_background admin_body)
      (run None (hero_requests jpg_then_png) (first_start 0)) =
      (Json 200 (Success (js "Hero background deleted successfully")), d')
    /\ HERO_BG_FILE d' = defaultHero
    /\ handle None sample_env (DELETE_hero_background admin_body) d' =
      (Json 200 (Success (js "Hero background deleted successfully")), d').
Proof.
  exact (delete_hero_idempotent None sample_env admin_body
           (run None (hero_requests jpg_then_png) (first_start 0)) eq_refl).
Defined.

(** ** The further properties at the sample requests *)

Lemma unauthorized_request_changes_nothing_witness :
  handle None sample_env
    (DELETE_gallery (js "gallery-1700000000000-123456789.jpg") guess_body)
    (run None stocked_requests (first_start 0)) =
  (Json 401 (ErrorBody (js "Invalid password")),
   run None stocked_requests (first_start 0)).
Proof.
  assert (H : forall body,
             request_body (DELETE_gallery (js "gallery-1700000000000-123456789.jpg")
                             guess_body) = Some body ->
             ~ authorized None body).
  { intros body E. injection E as <-. intros A. vm_compute in A. discriminate A. }
  destruct (unauthorized_request_changes_nothing None sample_env _
              (run None stocked_requests (first_start 0)) H) as [H1 H2].
  specialize (H2 guess_body eq_refl).
  rewrite (surjective_pairing (handle None sample_env _ _)), H1, H2. reflexivity.
Defined.

Lemma file_filter_verdicts_witness :
  imageFileFilter market_png = None
  /\ imageFileFilter script_png =
       Some (js "Invalid file extension. Only .jpg, .jpeg, .png, .gif, .webp are allowed.").
Proof.
  split.
  - apply (proj1 (file_filter_verdicts market_png)).
    split; apply (bool_decide_unpack _); vm_compute; exact I.
  - apply (proj2 (proj2 (file_filter_verdicts script_png))).
    + apply (bool_decide_unpack _). vm_compute. exact I.
    + apply (bool_decide_eq_false_1 (_ ∈ _)). vm_compute. reflexivity.
Defined.


Lemma failure_records_nothing_witness :
  succeeded (fst (handle None sample_env
                    (POST_gallery_upload admin_body [stall_jpg; leaflet_pdf])
                    (first_start 0))) = false
  /\ GALLERY_FILE (snd (handle None sample_env
                          (POST_gallery_upload admin_body [stall_jpg; leaflet_pdf])
                          (first_start 0))) = defaultGallery.
Proof.
  assert (H : succeeded (fst (handle None sample_env
                 (POST_gallery_upload admin_body [stall_jpg; leaflet_pdf])
                 (first_start 0))) = false) by (vm_compute; reflexivity).
  split; [exact H|].
  exact (proj1 (proj2 (failure_records_nothing None sample_env _ (first_start 0) H))).
Defined.

Lemma delete_gallery_removes_first_witness :
  exists d',
    handle None sample_env
      (DELETE_gallery (js "gallery-1700000000000-123456789.jpg") admin_body)
      (run None stocked_requests (first_start 0)) =
      (Json 200 (Success (js "Image deleted successfully")), d')
    /\ gallery_dir d' =
       gallery_dir (run None stocked_requests (first_start 0))
       ∖ {[js "gallery-1700000000000-123456789.jpg"]}.
Proof.
  assert (Hw : well_formed_filename (js "gallery-1700000000000-123456789.jpg")).
  { split; [discriminate|]. split; apply not_contains; reflexivity. }
  assert (Hin : gallery_entry sample_env 0 stall_jpg
                ∈ Gallery.images (GALLERY_FILE (run None stocked_requests (first_start 0)))).
  { vm_compute. left. }
  destruct (delete_gallery_removes_first None sample_env _ admin_body
              (run None stocked_requests (first_start 0))
              (gallery_entry sample_env 0 stall_jpg) eq_refl Hw Hin eq_refl)
    as [i [img [d' [E [_ [_ [_ [_ Hd]]]]]]]].
  exists d'. split; [exact E | exact Hd].
Defined.


Lemma stocked_hero_name_stays : hero_name_stays stocked.
Proof.
  intros name E _. vm_compute in E. injection E as <-.
  split; [|discriminate].
  split; [discriminate|]. split; apply not_contains; reflexivity.
Qed.

Lemma routes_touch_only_their_record_witness :
  hero_name_stays stocked
  /\ GALLERY_FILE (snd (handle None sample_env (DELETE_hero_background admin_body) stocked))
     = GALLERY_FILE stocked
  /\ gallery_dir (snd (handle None sample_env (DELETE_hero_background admin_body) stocked))
     = gallery_dir stocked.
Proof.
  split; [exact stocked_hero_name_stays|].
  exact (proj2 (routes_touch_only_their_record None sample_env
                  (DELETE_hero_background admin_body) stocked stocked_hero_name_stays)).
Defined.

Lemma delete_hero_removes_named_file_witness :
  hero_name_stays stocked
  /\ hero_dir (snd (handle None sample_env (DELETE_hero_background admin_body) stocked))
     = hero_dir stocked ∖ {[js "hero-background.png"]}
  /\ js "hero-background.jpg"
     ∈ hero_dir (snd (handle None sample_env (DELETE_hero_background admin_body) stocked)).
Proof.
  split; [exact stocked_hero_name_stays|].
  destruct (delete_hero_removes_named_file None sample_env admin_body stocked eq_refl
              stocked_hero_name_stays) as [Hd [Hkeep _]].
  split; [exact Hd|]. apply Hkeep.
  - apply (bool_decide_unpack _). vm_compute. exact I.
  - vm_compute. discriminate.
Defined.

Lemma gallery_append_only_witness :
  hero_name_stays stocked
  /\ exists added,
       Gallery.images
         (GALLERY_FILE (snd (handle None sample_env (DELETE_hero_background admin_body)
                               stocked))) =
       Gallery.images (GALLERY_FILE stocked) ++ added.
Proof.
  split; [exact stocked_hero_name_stays|].
  exact (gallery_append_only None sample_env (DELETE_hero_background admin_body) stocked
           stocked_hero_name_stays).
Defined.

Lemma error_middleware_verdicts_witness :
  error_middleware filter_error =
    Json 400 (ErrorBody
      (js "Invalid file extension. Only .jpg, .jpeg, .png, .gif, .webp are allowed.")).
Proof.
  apply (proj1 (proj2 (error_middleware_verdicts filter_error)) eq_refl).
  exists script_png. vm_compute. reflexivity.
Defined.



(** ** The upload routes at requests as the admin page would send them *)

Lemma hero_upload_stops_at_the_gate_witness :
  replies None hero_forms (first_start 0) =
    [Json 401 (ErrorBody (js "Invalid password"));
     Json 401 (ErrorBody (js "Invalid password"))]
  /\ run_http None hero_forms (first_start 0) = first_start 0.
Proof.
  unfold hero_forms. cbn [replies run_http].
  rewrite (proj2 (proj2 (hero_upload_stops_at_the_gate None sample_env
                           (MultipartContent admin_body [field_jpg]) (first_start 0)))
             admin_body [field_jpg] eq_refl).
  cbn [fst snd].
  rewrite (proj2 (proj2 (hero_upload_stops_at_the_gate None later_env
                           (MultipartContent admin_body [field_png]) (first_start 0)))
             admin_body [field_png] eq_refl).
  split; reflexivity.
Defined.

Lemma gallery_upload_stops_at_the_gate_witness :
  replies None gallery_forms (first_start 0) =
    [Json 401 (ErrorBody (js "Invalid password"));
     Json 401 (ErrorBody (js "Invalid password"))]
  /\ run_http None gallery_forms (first_start 0) = first_start 0.
Proof.
  unfold gallery_forms. cbn [replies run_http].
  rewrite (proj2 (proj2 (gallery_upload_stops_at_the_gate None sample_env
                           (MultipartContent admin_body [stall_jpg]) (first_start 0)))
             admin_body [stall_jpg] eq_refl).
  cbn [fst snd].
  rewrite (proj2 (proj2 (gallery_upload_stops_at_the_gate None later_env
                           (MultipartContent admin_body [stall_jpg]) (first_start 0)))
             admin_body [stall_jpg] eq_refl).
  split; reflexivity.
Defined.

Lemma gallery_names_differ_witness :
  dateNow sample_env 0 <> dateNow later_env 0
  /\ galleryStorage_filename sample_env 0 stall_jpg
     <> galleryStorage_filename later_env 0 stall_jpg.
Proof.
  assert (H : dateNow sample_env 0 <> dateNow later_env 0) by (vm_compute; discriminate).
  split; [exact H|].
  exact (gallery_names_differ sample_env later_env 0 0 stall_jpg stall_jpg (or_introl H)).
Defined.
